(** * Retry and fail-over policy of the OpenAI client load-balancing sample

    A shallow embedding of
      - [roundRobinThrottlingStrategy.ts] (throttling detection and the
        endpoint rotation strategy),
      - [mockRetry.ts] (the retry policy that drives the attempt loop),
      - the [switchEndpoint] policy of the cookbook's [index.ts], with the
        [OpenAIEndpointCoordinator] that holds it and its [mockRetry] policy,
      - the policy that [getCompletion] of [index.ts] installs,
    together with the properties of these functions.

    Conventions of the embedding.
      - A JavaScript [number] is an exact rational or one of [NaN],
        [+Infinity], [-Infinity]: IEEE rounding, overflow and the sign of
        zero are not represented.
      - [undefined] is [None]; a value that is tested for truthiness keeps
        its falsy cases (the empty string, 0 and [NaN], a falsy thrown value).
      - [retryCount] is a natural number: the policy counts it up from 0.
      - The transport ([next]), the abort signal and [delay] are the
        collaborators of the policy; they are the variables of the section
        that embeds the policy, and every effect of the loop is recorded in
        a trace of events. The calls of the loggers have no effect on the
        control flow and are left out, except that the first log line of an
        attempt marks the start of the attempt in the trace.
      - [sendRequest] is the method of the policy that
        [mockRetryPolicy(strategies, options)] returns. *)

From Stdlib Require Import Ascii String QArith ZArith List Lia.
From stdpp Require Import gmap strings list.

Local Open Scope string_scope.
Local Open Scope Z_scope.
Local Open Scope list_scope.

(** ** JavaScript numbers *)

Module JS.

Inductive number : Type :=
| NaN
| PosInf
| NegInf
| Fin (q : Q).

Definition ofZ (z : Z) : number := Fin (inject_Z z).

Definition isNaN (x : number) : bool :=
  match x with NaN => true | _ => false end.

(** [Number.isFinite(x)], with [undefined] as [None]: only a finite number
    passes, [undefined] does not. *)
Definition isFinite (x : option number) : bool :=
  match x with Some (Fin _) => true | _ => false end.

Definition isZero (q : Q) : bool := Qeq_bool q 0.

(** [x === 0] on a number. *)
Definition strictEqZero (x : number) : bool :=
  match x with Fin q => isZero q | _ => false end.

(** Truthiness of a number: everything but zero and [NaN]. *)
Definition truthy (x : number) : bool :=
  match x with Fin q => negb (isZero q) | NaN => false | _ => true end.

Definition sign_pos (q : Q) : bool := Qle_bool 0 q.

Definition inf_of_sign (positive : bool) : number :=
  if positive then PosInf else NegInf.

Definition is_pos_inf (x : number) : bool :=
  match x with PosInf => true | _ => false end.

(** [x * y] *)
Definition mul (x y : number) : number :=
  match x, y with
  | NaN, _ | _, NaN => NaN
  | Fin a, Fin b => Fin (Qred (a * b))
  | Fin a, i | i, Fin a =>
      if isZero a then NaN else inf_of_sign (Bool.eqb (sign_pos a) (is_pos_inf i))
  | i, j => inf_of_sign (Bool.eqb (is_pos_inf i) (is_pos_inf j))
  end.

(** [x - y] *)
Definition sub (x y : number) : number :=
  match x, y with
  | NaN, _ | _, NaN => NaN
  | Fin a, Fin b => Fin (Qred (a - b))
  | Fin _, PosInf => NegInf
  | Fin _, NegInf => PosInf
  | PosInf, PosInf | NegInf, NegInf => NaN
  | PosInf, _ => PosInf
  | NegInf, _ => NegInf
  end.

(** [Math.max(x, y)] *)
Definition max (x y : number) : number :=
  match x, y with
  | NaN, _ | _, NaN => NaN
  | PosInf, _ | _, PosInf => PosInf
  | NegInf, z | z, NegInf => z
  | Fin a, Fin b => if Qle_bool a b then Fin b else Fin a
  end.

(** The order of numbers, for stating results: [le x y] is [x <= y]. *)
Definition le (x y : number) : bool :=
  match x, y with
  | NaN, _ | _, NaN => false
  | NegInf, _ | _, PosInf => true
  | Fin a, Fin b => Qle_bool a b
  | _, _ => false
  end.


(** *** Strings *)

Definition isWhiteSpace (c : ascii) : bool :=
  let n := nat_of_ascii c in
  ((n =? 9) || (n =? 10) || (n =? 11) || (n =? 12) || (n =? 13) || (n =? 32))%nat.

Fixpoint dropWhiteSpace (cs : list ascii) : list ascii :=
  match cs with
  | c :: rest => if isWhiteSpace c then dropWhiteSpace rest else cs
  | [] => []
  end.

Definition trimChars (cs : list ascii) : list ascii :=
  rev (dropWhiteSpace (rev (dropWhiteSpace cs))).

(** [s.trim()], on the ASCII white space and line terminators. *)
Definition trim (s : string) : string :=
  string_of_list_ascii (trimChars (list_ascii_of_string s)).

Definition lowerChar (c : ascii) : ascii :=
  let n := nat_of_ascii c in
  if ((65 <=? n) && (n <=? 90))%nat then ascii_of_nat (n + 32) else c.

(** [s.toLowerCase()], on ASCII letters. *)
Fixpoint toLowerCase (s : string) : string :=
  match s with
  | EmptyString => EmptyString
  | String c rest => String (lowerChar c) (toLowerCase rest)
  end.

(** Truthiness of a string: every string but the empty one. *)
Definition nonEmpty (s : string) : bool :=
  match s with EmptyString => false | _ => true end.

(** String concatenation [x + s] where [x] is [string | undefined]:
    [undefined] is converted to the text ["undefined"]. *)
Definition toStringOrUndefined (x : option string) : string :=
  match x with Some s => s | None => "undefined" end.

(** *** [Number(string)]

    The StringToNumber conversion applied by [Number] to a string: white
    space is trimmed, the empty string is 0, and the rest must be a
    StrNumericLiteral as a whole, that is an optionally signed decimal
    literal (digits, fraction, exponent, or [Infinity]) or an unsigned
    binary, octal or hexadecimal integer literal; anything else is [NaN]. *)

Definition digitValue (radix : Z) (c : ascii) : option Z :=
  let n := Z.of_nat (nat_of_ascii c) in
  let v := if (48 <=? n) && (n <=? 57) then Some (n - 48)
           else if (97 <=? n) && (n <=? 122) then Some (n - 87)
           else if (65 <=? n) && (n <=? 90) then Some (n - 55)
           else None in
  match v with
  | Some d => if d <? radix then Some d else None
  | None => None
  end.

Fixpoint spanDigits (radix : Z) (cs : list ascii) : list Z * list ascii :=
  match cs with
  | c :: rest =>
      match digitValue radix c with
      | Some d => let '(ds, r) := spanDigits radix rest in (d :: ds, r)
      | None => ([], cs)
      end
  | [] => ([], [])
  end.

Definition digitsValue (radix : Z) (ds : list Z) : Z :=
  fold_left (fun acc d => radix * acc + d) ds 0.

Definition isEmpty {A} (l : list A) : bool :=
  match l with [] => true | _ => false end.

(** ExponentPart, optional, up to the end of the literal. *)
Definition parseExponent (cs : list ascii) : option Z :=
  match cs with
  | [] => Some 0
  | c :: rest =>
      if (Ascii.eqb c "e" || Ascii.eqb c "E")%char then
        let '(negative, rest') :=
          match rest with
          | s :: r => if Ascii.eqb s "-" then (true, r)
                      else if Ascii.eqb s "+" then (false, r)
                      else (false, rest)
          | [] => (false, rest)
          end in
        let '(ds, tail) := spanDigits 10 rest' in
        if isEmpty ds || negb (isEmpty tail) then None
        else Some (if negative then - digitsValue 10 ds else digitsValue 10 ds)
      else None
  end.

(** StrUnsignedDecimalLiteral *)
Definition parseUnsignedDecimal (cs : list ascii) : option number :=
  if String.eqb (string_of_list_ascii cs) "Infinity" then Some PosInf
  else
    let '(ip, r1) := spanDigits 10 cs in
    let '(fp, r2) :=
      match r1 with
      | c :: r => if Ascii.eqb c "." then spanDigits 10 r else ([], r1)
      | [] => ([], r1)
      end in
    if isEmpty ip && isEmpty fp then None
    else
      match parseExponent r2 with
      | None => None
      | Some e =>
          let mantissa :=
            (inject_Z (digitsValue 10 ip)
             + inject_Z (digitsValue 10 fp) / inject_Z (10 ^ Z.of_nat (length fp)))%Q in
          Some (Fin (Qred (mantissa * Qpower (inject_Z 10) e)))
      end.

Definition negate (x : number) : number :=
  match x with
  | NaN => NaN
  | PosInf => NegInf
  | NegInf => PosInf
  | Fin q => Fin (Qred (- q))
  end.

(** StrDecimalLiteral: an optional sign and an unsigned decimal literal. *)
Definition parseDecimal (cs : list ascii) : option number :=
  match cs with
  | c :: rest =>
      if Ascii.eqb c "-" then option_map negate (parseUnsignedDecimal rest)
      else if Ascii.eqb c "+" then parseUnsignedDecimal rest
      else parseUnsignedDecimal cs
  | [] => None
  end.

(** NonDecimalIntegerLiteral: [0b], [0o] or [0x] and digits of that radix. *)
Definition parseNonDecimal (cs : list ascii) : option number :=
  match cs with
  | z :: p :: ds =>
      let radix :=
        if negb (Ascii.eqb z "0") then None
        else if (Ascii.eqb p "x" || Ascii.eqb p "X")%char then Some 16
        else if (Ascii.eqb p "o" || Ascii.eqb p "O")%char then Some 8
        else if (Ascii.eqb p "b" || Ascii.eqb p "B")%char then Some 2
        else None in
      match radix with
      | Some r =>
          let '(vs, tail) := spanDigits r ds in
          if isEmpty vs || negb (isEmpty tail) then None
          else Some (ofZ (digitsValue r vs))
      | None => None
      end
  | _ => None
  end.

Definition Number (s : string) : number :=
  let cs := trimChars (list_ascii_of_string s) in
  if isEmpty cs then ofZ 0
  else
    match parseNonDecimal cs with
    | Some v => v
    | None =>
        match parseDecimal cs with
        | Some v => v
        | None => NaN
        end
    end.

End JS.

(** *** [new URL(string)]

    The components of an absolute URL with an authority, as the policy
    reads them: [pathname] and [search]. The text is split at the first
    ["://"], the authority ends at the first [/], [?] or [#], the path at
    the first [?] or [#], the query at the first [#]. An empty path is
    ["/"] and an empty query gives the empty [search]. The rewriting done by
    the URL parser (percent-encoding, dot segments, case of the host) is
    not represented. [None] stands for the [TypeError] of an invalid URL. *)

Module URL.

Record t : Type := {
  origin : string;
  pathname : string;
  search : string;
  hash : string
}.

Definition isSchemeChar (c : ascii) : bool :=
  let n := nat_of_ascii c in
  (((97 <=? n) && (n <=? 122)) || ((65 <=? n) && (n <=? 90))
   || ((48 <=? n) && (n <=? 57)) || (n =? 43) || (n =? 45) || (n =? 46))%nat.

Fixpoint splitScheme (cs : list ascii) : option (list ascii * list ascii) :=
  match cs with
  | [] => None
  | c :: rest =>
      if Ascii.eqb c ":" then
        match rest with
        | s1 :: s2 :: rest' =>
            if (Ascii.eqb s1 "/" && Ascii.eqb s2 "/")%char then Some ([], rest')
            else None
        | _ => None
        end
      else if isSchemeChar c then
        match splitScheme rest with
        | Some (scheme, rest') => Some (c :: scheme, rest')
        | None => None
        end
      else None
  end.

Fixpoint spanUntil (stop : ascii -> bool) (cs : list ascii)
  : list ascii * list ascii :=
  match cs with
  | [] => ([], [])
  | c :: rest =>
      if stop c then ([], cs)
      else let '(taken, r) := spanUntil stop rest in (c :: taken, r)
  end.

Definition isOneOf (stops : string) (c : ascii) : bool :=
  existsb (Ascii.eqb c) (list_ascii_of_string stops).

(** A component that is introduced by one character, such as [?query]:
    empty when only the introducing character is there. *)
Definition component (cs : list ascii) : string :=
  match cs with
  | [_] => ""
  | _ => string_of_list_ascii cs
  end.

Definition parse (s : string) : option t :=
  match splitScheme (list_ascii_of_string s) with
  | None => None
  | Some (scheme, rest) =>
      let '(authority, r1) := spanUntil (isOneOf "/?#") rest in
      let '(path, r2) := spanUntil (isOneOf "?#") r1 in
      let '(query, fragment) := spanUntil (isOneOf "#") r2 in
      if JS.isEmpty scheme || JS.isEmpty authority then None
      else
        Some {| origin := string_of_list_ascii (scheme ++ list_ascii_of_string "://" ++ authority);
                pathname := if JS.isEmpty path then "/" else string_of_list_ascii path;
                search := component query;
                hash := component fragment |}
  end.

End URL.

(** ** The types of the HTTP pipeline *)

(** [HttpHeaders]: a mapping keyed by the lower-cased header name; a value
    is stored trimmed. *)
Record HttpHeaders : Type := { headersMap : gmap string string }.

Definition normalizeName (name : string) : string := JS.toLowerCase name.

Definition headers_get (h : HttpHeaders) (name : string) : option string :=
  headersMap h !! normalizeName name.

Definition headers_set (h : HttpHeaders) (name value : string) : HttpHeaders :=
  {| headersMap := <[normalizeName name := JS.trim value]> (headersMap h) |}.

(** [createHttpHeaders(rawHeaders)]: the entries are [set] in their order. *)
Definition createHttpHeaders (rawHeaders : list (string * string)) : HttpHeaders :=
  fold_left (fun h '(name, value) => headers_set h name value) rawHeaders
            {| headersMap := ∅ |}.

Record PipelineRequest : Type := {
  url : string;
  requestId : string
}.

Record PipelineResponse : Type := {
  status : Z;
  request : PipelineRequest;
  headers : HttpHeaders;
  bodyAsText : option string
}.

(** A thrown value [e]: a falsy value, or an object with its [name] (if it
    has one), its [message] and, for a [RestError], its [response]. *)
Inductive Thrown : Type :=
| Falsy
| ErrorObject (name : option string) (message : string)
              (response : option PipelineResponse).

Definition errorName (e : Thrown) : option string :=
  match e with ErrorObject n _ _ => n | Falsy => None end.

Definition errorResponse (e : Thrown) : option PipelineResponse :=
  match e with ErrorObject _ _ r => r | Falsy => None end.

Definition isTruthy (e : Thrown) : bool :=
  match e with Falsy => false | ErrorObject _ _ _ => true end.

(** [e.name === "RestError"] *)
Definition isRestError (e : Thrown) : bool :=
  match errorName e with
  | Some n => String.eqb n "RestError"
  | None => false
  end.

(** [new AbortError()] of [@azure/abort-controller]. *)
Definition AbortError (message : string) : Thrown :=
  ErrorObject (Some "AbortError") message None.

Definition Error (message : string) : Thrown :=
  ErrorObject (Some "Error") message None.

Definition TypeError (message : string) : Thrown :=
  ErrorObject (Some "TypeError") message None.

(** A computation that returns or throws. *)
Inductive Completion (A : Type) : Type :=
| Normal (a : A)
| Abrupt (e : Thrown).
Arguments Normal {A} a.
Arguments Abrupt {A} e.

Record RetryInformation : Type := {
  retryCount : nat;
  response : option PipelineResponse;
  responseError : option Thrown
}.

Record RetryModifiers : Type := {
  skipStrategy : option bool;
  redirectTo : option string;
  retryAfterInMs : option JS.number;
  errorToThrow : option Thrown
}.

Record RetryStrategy : Type := {
  name : string;
  retry : RetryInformation -> Completion RetryModifiers
}.

(** The verdicts a strategy gives, as [RetryModifiers]. *)
Definition Skip : RetryModifiers :=
  {| skipStrategy := Some true; redirectTo := None;
     retryAfterInMs := None; errorToThrow := None |}.

Definition Wait (ms : JS.number) : RetryModifiers :=
  {| skipStrategy := None; redirectTo := None;
     retryAfterInMs := Some ms; errorToThrow := None |}.

Definition Redirect (target : string) : RetryModifiers :=
  {| skipStrategy := None; redirectTo := Some target;
     retryAfterInMs := None; errorToThrow := None |}.

Definition Throw (e : Thrown) : RetryModifiers :=
  {| skipStrategy := None; redirectTo := None;
     retryAfterInMs := None; errorToThrow := Some e |}.

(** ** roundRobinThrottlingStrategy.ts *)

Definition RetryAfterHeader : string := "Retry-After".

Definition AllRetryAfterHeaders : list string :=
  ["retry-after-ms"; "x-ms-retry-after-ms"; RetryAfterHeader].

(** The status codes of a throttling response, [[429, 503].includes(status)]. *)
Definition isThrottlingStatus (code : Z) : bool :=
  existsb (Z.eqb code) [429; 503].

Definition parseHeaderValueAsNumber
    (response : PipelineResponse) (headerName : string) : option JS.number :=
  match headers_get (headers response) headerName with
  | None => None
  | Some value =>
      if negb (JS.nonEmpty value) then None
      else
        let valueAsNum := JS.Number value in
        if JS.isNaN valueAsNum then None else Some valueAsNum
  end.

Definition multiplyingFactor (header : string) : Z :=
  if String.eqb header RetryAfterHeader then 1000 else 1.

(** [retryAfterValue === 0 || retryAfterValue] for a value that may be
    [undefined]. *)
Definition isZeroOrTruthy (v : option JS.number) : bool :=
  match v with
  | Some x => JS.strictEqZero x || JS.truthy x
  | None => false
  end.

(** The [for] loop of [getRetryAfterInMs] over the header names: the value
    it returns from the function, or [None] when it runs to its end. *)
Fixpoint firstRetryAfterValue
    (response : PipelineResponse) (names : list string) : option JS.number :=
  match names with
  | [] => None
  | header :: rest =>
      let retryAfterValue := parseHeaderValueAsNumber response header in
      match retryAfterValue with
      | Some v =>
          if isZeroOrTruthy retryAfterValue
          then Some (JS.mul v (JS.ofZ (multiplyingFactor header)))
          else firstRetryAfterValue response rest
      | None => firstRetryAfterValue response rest
      end
  end.

(** [retryCount % length + 1], the index that the rotation reads. *)
Definition rotationIndex (length retryCount : nat) : nat :=
  (retryCount mod length + 1)%nat.

Section Throttling.

(** [Date.parse] and the reading [Date.now()] of the clock. *)
Variable Date_parse : string -> JS.number.
Variable Date_now : JS.number.

(** The end of [getRetryAfterInMs]: [Retry-After] read as a date. *)
Definition retryAfterDate (response : PipelineResponse) : option JS.number :=
  match headers_get (headers response) RetryAfterHeader with
  | None => None
  | Some retryAfterHeader =>
      if negb (JS.nonEmpty retryAfterHeader) then None
      else
        let date := Date_parse retryAfterHeader in
        let diff := JS.sub date Date_now in
        if JS.isFinite (Some diff) then Some (JS.max (JS.ofZ 0) diff) else None
  end.

Definition getRetryAfterInMs (response : option PipelineResponse)
  : option JS.number :=
  match response with
  | None => None
  | Some r =>
      if negb (isThrottlingStatus (status r)) then None
      else
        match firstRetryAfterValue r AllRetryAfterHeaders with
        | Some ms => Some ms
        | None => retryAfterDate r
        end
  end.

Definition isThrottlingRetryResponse (response : option PipelineResponse) : bool :=
  JS.isFinite (getRetryAfterInMs response).

(** [openAiHosts[retryCount % openAiHosts.length + 1]]: an index outside
    the array, or the [NaN] index of an empty array, reads [undefined]. *)
Definition backupEndpoint (openAiHosts : list string) (retryCount : nat)
  : option string :=
  if (length openAiHosts =? 0)%nat then None
  else openAiHosts !! rotationIndex (length openAiHosts) retryCount.

Definition roundRobinThrottlingStrategy (openAiHosts : list string) : RetryStrategy :=
  {| name := "throttlingRetryStrategy";
     retry := fun info =>
       let requestWasThrottled := isThrottlingRetryResponse (response info) in
       if negb requestWasThrottled then
         Normal Skip
       else
         match response info with
         | None => Abrupt (TypeError "Cannot read properties of undefined")
         | Some r =>
             match URL.parse (url (request r)) with
             | None => Abrupt (TypeError "Invalid URL")
             | Some currentUrl =>
                 let redirect :=
                   (JS.toStringOrUndefined (backupEndpoint openAiHosts (retryCount info))
                    ++ URL.pathname currentUrl ++ URL.search currentUrl)%string in
                 Normal (Redirect redirect)
             end
         end |}.

End Throttling.

(** ** The [switchEndpoint] policy of the cookbook

    [request.url] after [switchEndpoint] ran with [currentRetries] retries
    counted by the coordinator; the request is then passed on. *)
Definition switchEndpoint (openAIEndpoints : list string) (currentRetries : nat)
    (request : PipelineRequest) : Completion PipelineRequest :=
  if (currentRetries =? 0)%nat then Normal request
  else
    match URL.parse (url request) with
    | None => Abrupt (TypeError "Invalid URL")
    | Some currentUrl =>
        let target :=
          if (length openAIEndpoints =? 0)%nat then None
          else openAIEndpoints !! rotationIndex (length openAIEndpoints) currentRetries in
        Normal {| url := (JS.toStringOrUndefined target
                          ++ URL.pathname currentUrl ++ URL.search currentUrl)%string;
                  requestId := requestId request |}
    end.

(** ** mockRetry.ts *)

Definition DEFAULT_RETRY_POLICY_COUNT : Z := 3.

(** [RetryPolicyOptions]; [maxRetries] is an integer when it is given. *)
Record RetryPolicyOptions : Type := { maxRetries : option Z }.

Definition defaultOptions : RetryPolicyOptions :=
  {| maxRetries := Some DEFAULT_RETRY_POLICY_COUNT |}.

(** [options.maxRetries ?? DEFAULT_RETRY_POLICY_COUNT] *)
Definition retryCeiling (options : RetryPolicyOptions) : Z :=
  match maxRetries options with
  | Some m => m
  | None => DEFAULT_RETRY_POLICY_COUNT
  end.

(** What one logical request does, in order: the start of an attempt (the
    first log line of the loop body), a call of [next], a call of a
    strategy's [retry], a call of [delay]. *)
Inductive Event : Type :=
| Attempted (retryCount : nat)
| Sent (request : PipelineRequest)
| Consulted (strategy : string) (retryCount : nat)
| Delayed (ms : JS.number).

(** The response that stands for the first request. *)
Definition mockResponse (request : PipelineRequest) : PipelineResponse :=
  {| status := 429;
     request := request;
     headers := createHttpHeaders
                  [("Content-Type", "text/plain"); ("retry-after-ms", "1000")];
     bodyAsText := Some "Too Many Requests" |}.

(** The end of one pass of the [retryRequest] loop: the policy returns or
    throws, or the loop goes on ([continue retryRequest]) with the request. *)
Inductive Step : Type :=
| Done (result : Completion PipelineResponse)
| Continue (request : PipelineRequest).

(** [if (x)] on an error that may be [undefined]. *)
Definition whenTruthy (e : option Thrown) : option Thrown :=
  match e with
  | Some x => if isTruthy x then Some x else None
  | None => None
  end.

(** [retryAfterInMs || retryAfterInMs === 0]: the wait, when the test passes. *)
Definition whenWait (ms : option JS.number) : option JS.number :=
  match ms with
  | Some x => if JS.truthy x || JS.strictEqZero x then Some x else None
  | None => None
  end.

(** [if (redirectTo)]: the target, when the test passes. *)
Definition whenNonEmpty (s : option string) : option string :=
  match s with
  | Some v => if JS.nonEmpty v then Some v else None
  | None => None
  end.

Definition isTrue (b : option bool) : bool :=
  match b with Some true => true | _ => false end.

(** The [catch] clause: is [e] thrown again at once? *)
Definition rethrown (e : Thrown) : bool :=
  negb (isTruthy e) || negb (isRestError e).

(** [response] and [responseError] after the [try] statement, or the error
    that the [catch] clause throws again. *)
Definition capture (result : Completion (option PipelineResponse))
  : Thrown + (option PipelineResponse * option Thrown) :=
  match result with
  | Normal r => inr (r, None)
  | Abrupt e => if rethrown e then inl e else inr (errorResponse e, Some e)
  end.

(** The terminal branch of the retry ceiling. *)
Definition atCeiling (response : option PipelineResponse)
    (responseError : option Thrown) : Completion PipelineResponse :=
  match whenTruthy responseError with
  | Some e => Abrupt e
  | None =>
      match response with
      | Some r => Normal r
      | None => Abrupt (Error "Maximum retries reached with no response or error to throw")
      end
  end.

(** The end of the loop body, after every strategy was passed. *)
Definition afterStrategies (request : PipelineRequest)
    (response : option PipelineResponse) (responseError : option Thrown) : Step :=
  match whenTruthy responseError with
  | Some e => Done (Abrupt e)
  | None =>
      match response with
      | Some r => Done (Normal r)
      | None => Continue request
      end
  end.

Section Policy.

(** The collaborators: the state of everything outside the policy, the
    rest of the pipeline [next], the reading [request.abortSignal?.aborted]
    of the abort signal, and [delay], which completes or rejects. *)
Variable World : Type.
Variable next : PipelineRequest -> World -> Completion (option PipelineResponse) * World.
Variable aborted : World -> bool.
Variable delay : JS.number -> World -> Completion unit * World.

Variable strategies : list RetryStrategy.
Variable options : RetryPolicyOptions.

(** The [try] block: the first request is not sent, a 429 response stands
    for its result; every later one goes to [next]. *)
Definition trySend (retryCount : nat) (request : PipelineRequest) (w : World)
  : Completion (option PipelineResponse) * list Event * World :=
  if (retryCount =? 0)%nat then (Normal (Some (mockResponse request)), [], w)
  else let '(result, w') := next request w in (result, [Sent request], w').

(** The [strategiesLoop]: [None] when the loop runs to its end. *)
Fixpoint strategiesLoop (remaining : list RetryStrategy) (info : RetryInformation)
    (request : PipelineRequest) (w : World) : option Step * list Event * World :=
  match remaining with
  | [] => (None, [], w)
  | strategy :: rest =>
      let consulted := Consulted (name strategy) (retryCount info) in
      match retry strategy info with
      | Abrupt e => (Some (Done (Abrupt e)), [consulted], w)
      | Normal modifiers =>
          if isTrue (skipStrategy modifiers) then
            let '(step, events, w') := strategiesLoop rest info request w in
            (step, consulted :: events, w')
          else
            match whenTruthy (errorToThrow modifiers) with
            | Some e => (Some (Done (Abrupt e)), [consulted], w)
            | None =>
                match whenWait (retryAfterInMs modifiers) with
                | Some ms =>
                    let '(slept, w') := delay ms w in
                    match slept with
                    | Normal _ => (Some (Continue request), [consulted; Delayed ms], w')
                    | Abrupt e => (Some (Done (Abrupt e)), [consulted; Delayed ms], w')
                    end
                | None =>
                    match whenNonEmpty (redirectTo modifiers) with
                    | Some target =>
                        (Some (Continue {| url := target; requestId := requestId request |}),
                         [consulted], w)
                    | None =>
                        let '(step, events, w') := strategiesLoop rest info request w in
                        (step, consulted :: events, w')
                    end
                end
            end
      end
  end.

(** One pass of the [retryRequest] loop. *)
Definition attempt (retryCount : nat) (request : PipelineRequest) (w : World)
  : Step * list Event * World :=
  let '(result, sent, w1) := trySend retryCount request w in
  let started := Attempted retryCount :: sent in
  match capture result with
  | inl e => (Done (Abrupt e), started, w1)
  | inr (response, responseError) =>
      if aborted w1 then (Done (Abrupt (AbortError "")), started, w1)
      else if retryCeiling options <=? Z.of_nat retryCount then
        (Done (atCeiling response responseError), started, w1)
      else
        let info := {| retryCount := retryCount; response := response;
                       responseError := responseError |} in
        let '(step, events, w2) := strategiesLoop strategies info request w1 in
        (default (afterStrategies request response responseError) step,
         started ++ events, w2)
  end.

(** The [retryRequest] loop, for at most [fuel] passes. *)
Fixpoint retryLoop (fuel : nat) (retryCount : nat) (request : PipelineRequest)
    (w : World) : option (Completion PipelineResponse * list Event * World) :=
  match fuel with
  | O => None
  | S fuel' =>
      let '(step, events, w1) := attempt retryCount request w in
      match step with
      | Done result => Some (result, events, w1)
      | Continue request' =>
          match retryLoop fuel' (S retryCount) request' w1 with
          | Some (result, later, w2) => Some (result, events ++ later, w2)
          | None => None
          end
      end
  end.

(** [sendRequest] of the policy: the loop starts with [retryCount] 0 and
    cannot make more passes than the ceiling allows. *)
Definition sendRequest (request : PipelineRequest) (w : World)
  : option (Completion PipelineResponse * list Event * World) :=
  retryLoop (S (Z.to_nat (retryCeiling options))) 0 request w.

End Policy.

Arguments trySend {World} next retryCount request w.
Arguments strategiesLoop {World} delay remaining info request w.
Arguments attempt {World} next aborted delay strategies options retryCount request w.
Arguments retryLoop {World} next aborted delay strategies options fuel retryCount request w.
Arguments sendRequest {World} next aborted delay strategies options request w.

Definition isConsulted (e : Event) : bool :=
  match e with Consulted _ _ => true | _ => false end.

Definition isSent (e : Event) : bool :=
  match e with Sent _ => true | _ => false end.

Definition isAttempted (e : Event) : bool :=
  match e with Attempted _ => true | _ => false end.

(** The number of calls of [next] in a trace. *)
Definition invocations (trace : list Event) : nat :=
  length (filter (fun e => isSent e = true) trace).

(** The number of passes of the loop in a trace. *)
Definition attempts (trace : list Event) : nat :=
  length (filter (fun e => isAttempted e = true) trace).

(** A strategy that skips on [info]. *)
Definition skips (info : RetryInformation) (s : RetryStrategy) : Prop :=
  exists modifiers,
    retry s info = Normal modifiers /\ isTrue (skipStrategy modifiers) = true.

(** The trace and the result of a run of [sendRequest]. *)
Definition traceOf {W : Type} (run : option (Completion PipelineResponse * list Event * W))
  : list Event :=
  match run with Some (_, trace, _) => trace | None => [] end.

Definition resultOf {W : Type} (run : option (Completion PipelineResponse * list Event * W))
  : option (Completion PipelineResponse) :=
  match run with Some (result, _, _) => Some result | None => None end.

Definition worldOf {W : Type} (run : option (Completion PipelineResponse * list Event * W))
  : option W :=
  match run with Some (_, _, w) => Some w | None => None end.

(** ** A scripted pipeline, for running the policy

    The world holds the results that [next] will give, in order, the
    number of calls of [next] so far, and the number of calls after which
    the abort signal is triggered, if it ever is. [delay] completes unless
    the signal is already triggered. *)
Module Scripted.

Record World : Type := {
  pending : list (Completion (option PipelineResponse));
  calls : nat;
  abortAt : option nat
}.

Definition next (request : PipelineRequest) (w : World)
  : Completion (option PipelineResponse) * World :=
  match pending w with
  | result :: rest =>
      (result, {| pending := rest; calls := S (calls w); abortAt := abortAt w |})
  | [] =>
      (Abrupt (TypeError "Failed to fetch"),
       {| pending := []; calls := S (calls w); abortAt := abortAt w |})
  end.

Definition aborted (w : World) : bool :=
  match abortAt w with
  | Some k => (k <=? calls w)%nat
  | None => false
  end.

Definition delay (ms : JS.number) (w : World) : Completion unit * World :=
  if aborted w then (Abrupt (AbortError "The delay was aborted."), w)
  else (Normal tt, w).

Definition attempt := attempt next aborted delay.
Definition sendRequest := sendRequest next aborted delay.

(** A clock for the examples: no text is a date, the time is 0. *)
Definition noDate (s : string) : JS.number := JS.NaN.
Definition epoch : JS.number := JS.ofZ 0.

(** A second clock: it reads 2 November 2026, 00:00:00 GMT, and knows one
    date in the future and one in the past. *)
Definition date2050 : string := "Wed, 21 Oct 2050 07:28:00 GMT".
Definition date2015 : string := "Wed, 21 Oct 2015 07:28:00 GMT".

Definition parseKnownDate (s : string) : JS.number :=
  if String.eqb s date2050 then JS.ofZ 2549950080000
  else if String.eqb s date2015 then JS.ofZ 1445412480000
  else JS.NaN.

Definition now2026 : JS.number := JS.ofZ 1793577600000.

Definition demoRequest : PipelineRequest :=
  {| url := "https://example.com/openai/deployments/gpt/chat/completions?api-version=2023-05-15";
     requestId := "1" |}.

Definition demoHosts : list string :=
  ["https://example.com"; "https://backup.openai.azure.com"].

Definition ok (body : string) : PipelineResponse :=
  {| status := 200; request := demoRequest;
     headers := createHttpHeaders []; bodyAsText := Some body |}.

Definition throttled (rawHeaders : list (string * string)) : PipelineResponse :=
  {| status := 429; request := demoRequest;
     headers := createHttpHeaders rawHeaders; bodyAsText := None |}.

(** A strategy that always gives [Wait(10)]. *)
Definition alwaysWait10 : RetryStrategy :=
  {| name := "wait10"; retry := fun _ => Normal (Wait (JS.ofZ 10)) |}.

(** A pipeline that answers 200 four times, with the bodies a, b, c, d. *)
Definition fourAnswers : World :=
  {| pending := map (fun body => Normal (Some (ok body))) ["a"; "b"; "c"; "d"];
     calls := 0; abortAt := None |}.

(** The policy with [maxRetries] 3 and the strategy [alwaysWait10], run
    on that pipeline. *)
Definition waitRun : option (Completion PipelineResponse * list Event * World) :=
  sendRequest [alwaysWait10] {| maxRetries := Some 3 |} demoRequest fourAnswers.

(** A pipeline that always answers 200, with an abort signal that stays
    quiet and delays that complete; the world counts the calls of [next] and
    an answer carries the count as its body (a, b, c, ...). *)
Definition answer (request : PipelineRequest) (calls : nat) : PipelineResponse :=
  {| status := 200; request := request; headers := createHttpHeaders [];
     bodyAsText := Some (String (ascii_of_nat (97 + calls)) "") |}.

Definition answering (request : PipelineRequest) (calls : nat)
  : Completion (option PipelineResponse) * nat :=
  (Normal (Some (answer request calls)), S calls).

Definition quiet (calls : nat) : bool := false.

Definition prompt (ms : JS.number) (calls : nat) : Completion unit * nat :=
  (Normal tt, calls).

(** A pipeline whose first call fails with an error that is no
    [RestError], the abort signal being triggered during that call. *)
Definition failingAborted : World :=
  {| pending := [Abrupt (TypeError "Failed to fetch")];
     calls := 0; abortAt := Some 1%nat |}.

(** A pipeline whose first call fails with a [RestError], the abort signal
    being triggered during that call. *)
Definition restErrorAborted : World :=
  {| pending := [Abrupt (ErrorObject (Some "RestError") "Service Unavailable" None)];
     calls := 0; abortAt := Some 1%nat |}.

(** A pipeline whose first call answers 200, the abort signal being quiet. *)
Definition oneAnswer : World :=
  {| pending := [Normal (Some (ok "a"))]; calls := 0; abortAt := None |}.

(** A pipeline that answers 200, the abort signal being triggered during
    the third call. *)
Definition abortedAtThird : World :=
  {| pending := map (fun body => Normal (Some (ok body))) ["a"; "b"; "c"; "d"];
     calls := 0; abortAt := Some 3%nat |}.

(** The policy with [maxRetries] 3 and the strategy [alwaysWait10], run
    on [abortedAtThird]. *)
Definition ceilingAbortedRun
  : option (Completion PipelineResponse * list Event * World) :=
  sendRequest [alwaysWait10] {| maxRetries := Some 3 |} demoRequest abortedAtThird.

(** The policy with the default options and the strategy [alwaysWait10],
    run on [failingAborted]. *)
Definition abortedRun : option (Completion PipelineResponse * list Event * World) :=
  sendRequest [alwaysWait10] defaultOptions demoRequest failingAborted.

End Scripted.

(** ** More observations of a trace *)

Definition isDelayed (e : Event) : bool :=
  match e with Delayed _ => true | _ => false end.

(** The number of calls of [delay] in a trace. *)
Definition delays (trace : list Event) : nat :=
  length (filter (fun e => isDelayed e = true) trace).

(** The requests given to [next], in order. *)
Definition sentRequests (trace : list Event) : list PipelineRequest :=
  flat_map (fun e => match e with Sent q => [q] | _ => [] end) trace.

(** The event of asking a strategy in the attempt [retryCount]. *)
Definition consulting (retryCount : nat) (s : RetryStrategy) : Event :=
  Consulted (name s) retryCount.

(** A URL that one of the strategies gives as its redirect. *)
Definition redirected (strategies : list RetryStrategy) (target : string) : Prop :=
  exists s info m,
    In s strategies /\ retry s info = Normal m /\ redirectTo m = Some target.

(** What the strategies are told after the first pass of the loop. *)
Definition mockInfo (request : PipelineRequest) : RetryInformation :=
  {| retryCount := 0; response := Some (mockResponse request);
     responseError := None |}.

(** ** index.ts: the policy that [getCompletion] installs

    [mockRetryPolicy([roundRobinThrottlingStrategy(["https://example.com",
    endpoint])], { maxRetries: 3 })] *)

Definition completionHosts (endpoint : string) : list string :=
  ["https://example.com"; endpoint].

Definition completionStrategies (Date_parse : string -> JS.number)
    (Date_now : JS.number) (endpoint : string) : list RetryStrategy :=
  [roundRobinThrottlingStrategy Date_parse Date_now (completionHosts endpoint)].

Definition completionOptions : RetryPolicyOptions := {| maxRetries := Some 3 |}.

(** ** The [OpenAIEndpointCoordinator] of the cookbook

    The coordinator holds the counter [currentRetries] and the endpoints.
    Each of its two policies either passes a request on to the rest of the
    pipeline, answers by itself, or throws; [mockRetry] may count the
    counter up. *)
Module Coordinator.

Record t : Type := {
  currentRetries : nat;
  openAIEndpoints : list string
}.

(** [new OpenAIEndpointCoordinator(endpoints)] *)
Definition create (endpoints : list string) : t :=
  {| currentRetries := 0; openAIEndpoints := endpoints |}.

Inductive Action : Type :=
| Forward (request : PipelineRequest)
| Answer (response : PipelineResponse)
| Fail (e : Thrown).

(** The response that [mockRetry] builds; its [headers] is an object
    without entries. *)
Definition tooManyRequests (request : PipelineRequest) : PipelineResponse :=
  {| status := 429; request := request; headers := {| headersMap := ∅ |};
     bodyAsText := Some "Too Many Requests" |}.

(** [sendRequest] of the policy [mockRetry()] *)
Definition mockRetry (c : t) (request : PipelineRequest) : Action * t :=
  if (currentRetries c <=? 0)%nat then (Forward request, c)
  else
    (Answer (tooManyRequests request),
     {| currentRetries := S (currentRetries c);
        openAIEndpoints := openAIEndpoints c |}).

(** [sendRequest] of the policy [switchEndpoint()] *)
Definition switchEndpointPolicy (c : t) (request : PipelineRequest) : Action * t :=
  match switchEndpoint (openAIEndpoints c) (currentRetries c) request with
  | Normal request' => (Forward request', c)
  | Abrupt e => (Fail e, c)
  end.

(** A use of one of the two policies with a request. *)
Inductive Call : Type :=
| ViaMockRetry (request : PipelineRequest)
| ViaSwitchEndpoint (request : PipelineRequest).

Definition requestOf (call : Call) : PipelineRequest :=
  match call with ViaMockRetry r | ViaSwitchEndpoint r => r end.

Definition perform (c : t) (call : Call) : Action * t :=
  match call with
  | ViaMockRetry request => mockRetry c request
  | ViaSwitchEndpoint request => switchEndpointPolicy c request
  end.

(** The policies used one after the other, in any order. *)
Fixpoint run (c : t) (calls : list Call) : list Action * t :=
  match calls with
  | [] => ([], c)
  | call :: rest =>
      let '(action, c1) := perform c call in
      let '(actions, c2) := run c1 rest in
      (action :: actions, c2)
  end.

End Coordinator.

(** ** Well-formed parts of a URL *)

Definition schemeSeparator : list ascii := list_ascii_of_string "://".

Definition noneOf (stops : string) (cs : list ascii) : Prop :=
  Forall (fun c => URL.isOneOf stops c = false) cs.

(** A path as [URL.parse] gives it: it starts with [/] and has no [?] or [#]. *)
Definition isPath (cs : list ascii) : Prop :=
  (exists rest, cs = "/"%char :: rest) /\ noneOf "?#" cs.

(** A query as [URL.parse] gives it: empty, or [?] and at least one more
    character, without [#]. *)
Definition isSearch (cs : list ascii) : Prop :=
  (cs = [] \/ exists c rest, cs = "?"%char :: c :: rest) /\ noneOf "#" cs.

(** ** The request as one shared object

    [sendRequest] gets one request object, gives that same object to
    [next] in every pass and writes its [url] when a strategy redirects; the
    rest of the pipeline can write to the object as well. In this second
    embedding of the loop [next] gives, with its result, the state in which
    it leaves the request, and the loop goes on with that state. The
    strategies are functions of their argument, as above. *)

Module Shared.

Section Policy.

Variable World : Type.
Variable next : PipelineRequest -> World
                -> Completion (option PipelineResponse) * PipelineRequest * World.
Variable aborted : World -> bool.
Variable delay : JS.number -> World -> Completion unit * World.

Variable strategies : list RetryStrategy.
Variable options : RetryPolicyOptions.

(** The [try] block, with the request as [next] leaves it. *)
Definition trySend (retryCount : nat) (request : PipelineRequest) (w : World)
  : Completion (option PipelineResponse) * list Event * PipelineRequest * World :=
  if (retryCount =? 0)%nat then (Normal (Some (mockResponse request)), [], request, w)
  else let '(result, request', w') := next request w in
       (result, [Sent request], request', w').

(** One pass of the [retryRequest] loop. *)
Definition attempt (retryCount : nat) (request : PipelineRequest) (w : World)
  : Step * list Event * World :=
  let '(result, sent, request1, w1) := trySend retryCount request w in
  let started := Attempted retryCount :: sent in
  match capture result with
  | inl e => (Done (Abrupt e), started, w1)
  | inr (response, responseError) =>
      if aborted w1 then (Done (Abrupt (AbortError "")), started, w1)
      else if retryCeiling options <=? Z.of_nat retryCount then
        (Done (atCeiling response responseError), started, w1)
      else
        let info := {| retryCount := retryCount; response := response;
                       responseError := responseError |} in
        let '(step, events, w2) := strategiesLoop delay strategies info request1 w1 in
        (default (afterStrategies request1 response responseError) step,
         started ++ events, w2)
  end.

(** The [retryRequest] loop, for at most [fuel] passes. *)
Fixpoint retryLoop (fuel : nat) (retryCount : nat) (request : PipelineRequest)
    (w : World) : option (Completion PipelineResponse * list Event * World) :=
  match fuel with
  | O => None
  | S fuel' =>
      let '(step, events, w1) := attempt retryCount request w in
      match step with
      | Done result => Some (result, events, w1)
      | Continue request' =>
          match retryLoop fuel' (S retryCount) request' w1 with
          | Some (result, later, w2) => Some (result, events ++ later, w2)
          | None => None
          end
      end
  end.

Definition sendRequest (request : PipelineRequest) (w : World)
  : option (Completion PipelineResponse * list Event * World) :=
  retryLoop (S (Z.to_nat (retryCeiling options))) 0 request w.

End Policy.

Arguments trySend {World} next retryCount request w.
Arguments attempt {World} next aborted delay strategies options retryCount request w.
Arguments retryLoop {World} next aborted delay strategies options fuel retryCount request w.
Arguments sendRequest {World} next aborted delay strategies options request w.

(** What [next] answers, without the state of the request. *)
Definition answerOf {World : Type}
    (next : PipelineRequest -> World
            -> Completion (option PipelineResponse) * PipelineRequest * World)
    (request : PipelineRequest) (w : World)
  : Completion (option PipelineResponse) * World :=
  let '(result, _, w') := next request w in (result, w').

(** A rest of the pipeline that only reads the request. *)
Definition reading {World : Type}
    (next : PipelineRequest -> World -> Completion (option PipelineResponse) * World)
    (request : PipelineRequest) (w : World)
  : Completion (option PipelineResponse) * PipelineRequest * World :=
  let '(result, w') := next request w in (result, request, w').

(** A rest of the pipeline that assigns [request.url]. *)
Definition rewriting {World : Type} (target : string)
    (next : PipelineRequest -> World -> Completion (option PipelineResponse) * World)
    (request : PipelineRequest) (w : World)
  : Completion (option PipelineResponse) * PipelineRequest * World :=
  let '(result, w') := next request w in
  (result, {| url := target; requestId := requestId request |}, w').

End Shared.

(** * Properties *)

(** ** Numbers *)

Lemma Number_empty : JS.Number "" = JS.ofZ 0.
Proof. reflexivity. Qed.

Lemma Number_NaN_nonEmpty (v : string) :
  JS.isNaN (JS.Number v) = true -> JS.nonEmpty v = true.
Proof. destruct v; [discriminate | reflexivity]. Qed.


Lemma Qred_zero (q : Q) : (q == 0)%Q -> Qred q = 0%Q.
Proof. intros H. rewrite (Qred_complete _ _ H). reflexivity. Qed.

(** [Math.max(0, x)] of a number that is not [NaN] is never below 0. *)
Lemma max_zero_nonneg (x : JS.number) :
  JS.isNaN x = false -> JS.le (JS.ofZ 0) (JS.max (JS.ofZ 0) x) = true.
Proof.
  destruct x as [| | |q]; intros H; try discriminate; try reflexivity.
  cbn. destruct (Qle_bool (inject_Z 0) q) eqn:E; cbn; [exact E | reflexivity].
Qed.

(** ** Throttling detection *)

Lemma parseHeaderValueAsNumber_not_NaN r h v :
  parseHeaderValueAsNumber r h = Some v -> JS.isNaN v = false.
Proof.
  unfold parseHeaderValueAsNumber.
  destruct (headers_get (headers r) h) as [value|]; [|discriminate].
  destruct (negb (JS.nonEmpty value)); [discriminate|].
  destruct (JS.isNaN (JS.Number value)) eqn:E; [discriminate|].
  intros [= <-]. exact E.
Qed.

(** A parsed header value always passes [value === 0 || value]. *)
Lemma isZeroOrTruthy_not_NaN v :
  JS.isNaN v = false -> isZeroOrTruthy (Some v) = true.
Proof.
  destruct v as [| | |q]; cbn; intros H; try discriminate; try reflexivity.
  destruct (JS.isZero q); reflexivity.
Qed.

Lemma firstRetryAfterValue_cons r header rest :
  firstRetryAfterValue r (header :: rest) =
  match parseHeaderValueAsNumber r header with
  | Some v => Some (JS.mul v (JS.ofZ (multiplyingFactor header)))
  | None => firstRetryAfterValue r rest
  end.
Proof.
  cbn [firstRetryAfterValue].
  destruct (parseHeaderValueAsNumber r header) as [v|] eqn:E; [|reflexivity].
  rewrite (isZeroOrTruthy_not_NaN v (parseHeaderValueAsNumber_not_NaN _ _ _ E)).
  reflexivity.
Qed.

Lemma parseHeaderValueAsNumber_value r h value :
  headers_get (headers r) h = Some value ->
  parseHeaderValueAsNumber r h =
  if negb (JS.nonEmpty value) then None
  else if JS.isNaN (JS.Number value) then None else Some (JS.Number value).
Proof. unfold parseHeaderValueAsNumber. intros ->. reflexivity. Qed.

(** The order of [getRetryAfterInMs] on a response with a throttling status:
    the three headers in turn, then [Retry-After] as a date. *)
Lemma getRetryAfterInMs_order Date_parse Date_now r :
  isThrottlingStatus (status r) = true ->
  getRetryAfterInMs Date_parse Date_now (Some r) =
  match parseHeaderValueAsNumber r "retry-after-ms" with
  | Some v => Some (JS.mul v (JS.ofZ 1))
  | None =>
      match parseHeaderValueAsNumber r "x-ms-retry-after-ms" with
      | Some v => Some (JS.mul v (JS.ofZ 1))
      | None =>
          match parseHeaderValueAsNumber r "Retry-After" with
          | Some v => Some (JS.mul v (JS.ofZ 1000))
          | None => retryAfterDate Date_parse Date_now r
          end
      end
  end.
Proof.
  intros Hs. unfold getRetryAfterInMs. rewrite Hs. cbn [negb].
  unfold AllRetryAfterHeaders, RetryAfterHeader.
  rewrite !firstRetryAfterValue_cons.
  change (multiplyingFactor "retry-after-ms") with 1.
  change (multiplyingFactor "x-ms-retry-after-ms") with 1.
  change (multiplyingFactor "Retry-After") with 1000.
  destruct (parseHeaderValueAsNumber r "retry-after-ms"); [reflexivity|].
  destruct (parseHeaderValueAsNumber r "x-ms-retry-after-ms"); [reflexivity|].
  destruct (parseHeaderValueAsNumber r "Retry-After"); reflexivity.
Qed.

Lemma retryAfterDate_value Date_parse Date_now r v :
  headers_get (headers r) RetryAfterHeader = Some v ->
  JS.nonEmpty v = true ->
  retryAfterDate Date_parse Date_now r =
  if JS.isFinite (Some (JS.sub (Date_parse v) Date_now))
  then Some (JS.max (JS.ofZ 0) (JS.sub (Date_parse v) Date_now))
  else None.
Proof. unfold retryAfterDate. intros -> ->. reflexivity. Qed.

(** ** The retry loop *)

Section PolicyProperties.

Context {World : Type}.
Variable next : PipelineRequest -> World -> Completion (option PipelineResponse) * World.

Lemma trySend_first request w :
  trySend next 0 request w = (Normal (Some (mockResponse request)), [], w).
Proof. reflexivity. Qed.

Lemma trySend_later retryCount request w :
  retryCount <> 0%nat ->
  trySend next retryCount request w =
  (fst (next request w), [Sent request], snd (next request w)).
Proof.
  intros H. unfold trySend.
  destruct retryCount as [|n]; [congruence|]. cbn.
  destruct (next request w); reflexivity.
Qed.

(** The events of [trySend] are its call of [next], if any. *)
Lemma trySend_events retryCount request w :
  forall e, In e (snd (fst (trySend next retryCount request w))) -> e = Sent request.
Proof.
  unfold trySend. destruct (retryCount =? 0)%nat; cbn; [tauto|].
  destruct (next request w); cbn. intros e [<-|[]]. reflexivity.
Qed.

Variable aborted : World -> bool.
Variable delay : JS.number -> World -> Completion unit * World.
Variable strategies : list RetryStrategy.
Variable options : RetryPolicyOptions.

(** The four ways through one pass of the loop. *)
Lemma attempt_rethrown retryCount request w e sent w1 :
  trySend next retryCount request w = (Abrupt e, sent, w1) ->
  rethrown e = true ->
  attempt next aborted delay strategies options retryCount request w
  = (Done (Abrupt e), Attempted retryCount :: sent, w1).
Proof. intros Ht Hr. unfold attempt. rewrite Ht. cbn. rewrite Hr. reflexivity. Qed.

Lemma attempt_aborted retryCount request w result sent w1 response responseError :
  trySend next retryCount request w = (result, sent, w1) ->
  capture result = inr (response, responseError) ->
  aborted w1 = true ->
  attempt next aborted delay strategies options retryCount request w
  = (Done (Abrupt (AbortError "")), Attempted retryCount :: sent, w1).
Proof. intros Ht Hc Ha. unfold attempt. rewrite Ht, Hc, Ha. reflexivity. Qed.

Lemma attempt_ceiling retryCount request w result sent w1 response responseError :
  trySend next retryCount request w = (result, sent, w1) ->
  capture result = inr (response, responseError) ->
  aborted w1 = false ->
  retryCeiling options <= Z.of_nat retryCount ->
  attempt next aborted delay strategies options retryCount request w
  = (Done (atCeiling response responseError), Attempted retryCount :: sent, w1).
Proof.
  intros Ht Hc Ha Hm. unfold attempt. rewrite Ht, Hc, Ha.
  apply Z.leb_le in Hm. rewrite Hm. reflexivity.
Qed.

Lemma attempt_strategies retryCount request w result sent w1 response responseError :
  trySend next retryCount request w = (result, sent, w1) ->
  capture result = inr (response, responseError) ->
  aborted w1 = false ->
  Z.of_nat retryCount < retryCeiling options ->
  attempt next aborted delay strategies options retryCount request w
  = let '(step, events, w2) :=
      strategiesLoop delay strategies
        {| retryCount := retryCount; response := response;
           responseError := responseError |} request w1 in
    (default (afterStrategies request response responseError) step,
     (Attempted retryCount :: sent) ++ events, w2).
Proof.
  intros Ht Hc Ha Hm. unfold attempt. rewrite Ht, Hc, Ha.
  apply Z.leb_gt in Hm. rewrite Hm. reflexivity.
Qed.

(** At the ceiling a pass always ends the loop, and no strategy is asked. *)
Lemma attempt_at_ceiling retryCount request w :
  retryCeiling options <= Z.of_nat retryCount ->
  exists result sent w1,
    attempt next aborted delay strategies options retryCount request w
    = (Done result, Attempted retryCount :: sent, w1)
    /\ sent = snd (fst (trySend next retryCount request w)).
Proof.
  intros Hm.
  destruct (trySend next retryCount request w) as [[result sent] w1] eqn:Ht.
  destruct (capture result) as [e|[response responseError]] eqn:Hc.
  - destruct result as [r|e']; cbn in Hc; [discriminate|].
    destruct (rethrown e') eqn:Hr; [|discriminate]. injection Hc as <-.
    eexists _, sent, w1. split; [|reflexivity]. eapply attempt_rethrown; eauto.
  - destruct (aborted w1) eqn:Ha.
    + eexists _, sent, w1. split; [|reflexivity]. eapply attempt_aborted; eauto.
    + eexists _, sent, w1. split; [|reflexivity]. eapply attempt_ceiling; eauto.
Qed.

Lemma retryLoop_done fuel retryCount request w result events w1 :
  attempt next aborted delay strategies options retryCount request w
  = (Done result, events, w1) ->
  retryLoop next aborted delay strategies options (S fuel) retryCount request w
  = Some (result, events, w1).
Proof. intros H. cbn [retryLoop]. rewrite H. reflexivity. Qed.

Lemma retryLoop_continue fuel retryCount request w request' events w1 :
  attempt next aborted delay strategies options retryCount request w
  = (Continue request', events, w1) ->
  retryLoop next aborted delay strategies options (S fuel) retryCount request w
  = match retryLoop next aborted delay strategies options fuel (S retryCount) request' w1 with
    | Some (result, later, w2) => Some (result, events ++ later, w2)
    | None => None
    end.
Proof. intros H. cbn [retryLoop]. rewrite H. reflexivity. Qed.

(** The loop ends within the passes that the ceiling leaves. *)
Lemma retryLoop_terminates fuel : forall retryCount request w,
  retryCeiling options <= Z.of_nat retryCount + Z.of_nat fuel ->
  exists outcome,
    retryLoop next aborted delay strategies options (S fuel) retryCount request w
    = Some outcome.
Proof.
  induction fuel as [|fuel IH]; intros retryCount request w Hf;
    destruct (attempt next aborted delay strategies options retryCount request w)
      as [[[result|request'] events] w1] eqn:Ha;
    try (erewrite retryLoop_done by eassumption; eauto; fail);
    erewrite retryLoop_continue by eassumption.
  - destruct (attempt_at_ceiling retryCount request w) as (r & s & w' & E & _);
      [lia | congruence].
  - destruct (Z_le_gt_dec (retryCeiling options) (Z.of_nat retryCount)) as [Hle|Hgt].
    + destruct (attempt_at_ceiling retryCount request w Hle) as (r & s & w' & E & _).
      congruence.
    + destruct (IH (S retryCount) request' w1) as [[[r l] w2] ->]; [lia|]. eauto.
Qed.

(** [sendRequest] always returns or throws. *)
Lemma sendRequest_total request w :
  exists result trace w',
    sendRequest next aborted delay strategies options request w
    = Some (result, trace, w').
Proof.
  destruct (retryLoop_terminates (Z.to_nat (retryCeiling options)) 0 request w)
    as [[[r t] w'] E]; [lia|].
  exists r, t, w'. exact E.
Qed.

End PolicyProperties.

(** * The claims *)

(** C1, as stated, fails: a 429 response without any of the three headers
    has no wait, and [isThrottlingRetryResponse] is false for it, not true. *)
Lemma C1_counterexample :
  let r := Scripted.throttled [] in
  isThrottlingStatus (status r) = true
  /\ Forall (fun h => parseHeaderValueAsNumber r h = None) AllRetryAfterHeaders
  /\ getRetryAfterInMs Scripted.noDate Scripted.epoch (Some r) = None
  /\ isThrottlingRetryResponse Scripted.noDate Scripted.epoch (Some r) <> true.
Proof.
  cbn zeta. split; [reflexivity|]. split; [repeat constructor|].
  split; [reflexivity|]. vm_compute. discriminate.
Qed.

(** C1, amended: for every response whose status is 429 or 503 and in
    which none of [retry-after-ms], [x-ms-retry-after-ms], [Retry-After]
    parses as a number, nor [Retry-After] as a date with a finite distance
    to now, [getRetryAfterInMs] returns [undefined] and
    [isThrottlingRetryResponse] returns false. *)
Theorem C1_no_valid_header_not_throttled Date_parse Date_now r :
  isThrottlingStatus (status r) = true ->
  Forall (fun h => parseHeaderValueAsNumber r h = None) AllRetryAfterHeaders ->
  (forall v, headers_get (headers r) RetryAfterHeader = Some v ->
             JS.isFinite (Some (JS.sub (Date_parse v) Date_now)) = false) ->
  getRetryAfterInMs Date_parse Date_now (Some r) = None
  /\ isThrottlingRetryResponse Date_parse Date_now (Some r) = false.
Proof.
  intros Hs Hh Hd.
  assert (getRetryAfterInMs Date_parse Date_now (Some r) = None) as E.
  { rewrite getRetryAfterInMs_order by exact Hs.
    inversion Hh as [|h1 l1 H1 Hh1]; subst. inversion Hh1 as [|h2 l2 H2 Hh2]; subst.
    inversion Hh2 as [|h3 l3 H3 _]; subst.
    rewrite H1, H2. unfold RetryAfterHeader in H3. rewrite H3.
    unfold retryAfterDate.
    destruct (headers_get (headers r) RetryAfterHeader) as [v|] eqn:Ev; [|reflexivity].
    destruct (negb (JS.nonEmpty v)); [reflexivity|].
    rewrite (Hd v eq_refl). reflexivity. }
  split; [exact E|]. unfold isThrottlingRetryResponse. rewrite E. reflexivity.
Qed.

Lemma C1_witness :
  let r := Scripted.throttled [("Retry-After", "soon")] in
  getRetryAfterInMs Scripted.parseKnownDate Scripted.now2026 (Some r) = None
  /\ isThrottlingRetryResponse Scripted.parseKnownDate Scripted.now2026 (Some r) = false.
Proof.
  cbn zeta.
  apply (C1_no_valid_header_not_throttled Scripted.parseKnownDate Scripted.now2026
           (Scripted.throttled [("Retry-After", "soon")])).
  - reflexivity.
  - repeat constructor.
  - intros v H. vm_compute in H. injection H as <-. reflexivity.
Defined.



(** [Retry-After: 2] alone is two seconds. *)
Example retry_after_seconds :
  getRetryAfterInMs Scripted.parseKnownDate Scripted.now2026
    (Some (Scripted.throttled [("Retry-After", "2")])) = Some (JS.ofZ 2000).
Proof. reflexivity. Qed.

(** C8, as stated, fails: with [retry-after-ms: 500] next to a
    [Retry-After] that is a date, the wait is 500 and not the distance to
    that date. *)
Lemma C8_counterexample :
  let r := Scripted.throttled
             [("retry-after-ms", "500"); ("Retry-After", Scripted.date2050)] in
  isThrottlingStatus (status r) = true
  /\ headers_get (headers r) RetryAfterHeader = Some Scripted.date2050
  /\ JS.isNaN (JS.Number Scripted.date2050) = true
  /\ JS.max (JS.ofZ 0) (JS.sub (Scripted.parseKnownDate Scripted.date2050) Scripted.now2026)
     = JS.ofZ 756372480000
  /\ getRetryAfterInMs Scripted.parseKnownDate Scripted.now2026 (Some r)
     = Some (JS.ofZ 500)
  /\ getRetryAfterInMs Scripted.parseKnownDate Scripted.now2026 (Some r)
     <> Some (JS.max (JS.ofZ 0)
                (JS.sub (Scripted.parseKnownDate Scripted.date2050) Scripted.now2026)).
Proof.
  cbn zeta. repeat (split; [reflexivity|]). vm_compute. discriminate.
Qed.

(** C8, amended: for every response with a throttling status in which
    neither [retry-after-ms] nor [x-ms-retry-after-ms] gives a number and
    whose [Retry-After] value does not parse as a number, that value is read
    as a date and the wait is [max(0, date - now)]: positive and equal to
    the distance for a later date, exactly 0 for a date that is not later,
    never negative, and [undefined] when the distance is not finite. *)
Theorem C8_retry_after_as_date Date_parse Date_now r v :
  isThrottlingStatus (status r) = true ->
  parseHeaderValueAsNumber r "retry-after-ms" = None ->
  parseHeaderValueAsNumber r "x-ms-retry-after-ms" = None ->
  headers_get (headers r) RetryAfterHeader = Some v ->
  JS.isNaN (JS.Number v) = true ->
  let diff := JS.sub (Date_parse v) Date_now in
  getRetryAfterInMs Date_parse Date_now (Some r)
    = (if JS.isFinite (Some diff) then Some (JS.max (JS.ofZ 0) diff) else None)
  /\ (forall d n, Date_parse v = JS.Fin d -> Date_now = JS.Fin n -> (n < d)%Q ->
        exists ms, getRetryAfterInMs Date_parse Date_now (Some r) = Some (JS.Fin ms)
                   /\ (0 < ms)%Q /\ (ms == d - n)%Q)
  /\ (forall d n, Date_parse v = JS.Fin d -> Date_now = JS.Fin n -> (d <= n)%Q ->
        getRetryAfterInMs Date_parse Date_now (Some r) = Some (JS.ofZ 0))
  /\ (forall ms, getRetryAfterInMs Date_parse Date_now (Some r) = Some ms ->
        JS.le (JS.ofZ 0) ms = true)
  /\ (JS.isFinite (Some diff) = false ->
        getRetryAfterInMs Date_parse Date_now (Some r) = None).
Proof.
  intros Hs H1 H2 Hv Hn diff.
  assert (getRetryAfterInMs Date_parse Date_now (Some r)
          = if JS.isFinite (Some diff) then Some (JS.max (JS.ofZ 0) diff) else None) as E.
  { rewrite getRetryAfterInMs_order by exact Hs. rewrite H1, H2.
    unfold RetryAfterHeader in Hv.
    rewrite (parseHeaderValueAsNumber_value _ _ _ Hv).
    rewrite (Number_NaN_nonEmpty _ Hn), Hn. cbn [negb].
    apply retryAfterDate_value; [exact Hv | apply Number_NaN_nonEmpty, Hn]. }
  split; [exact E|]. rewrite E. repeat split.
  - intros d n Hd Hnow Hlt. subst diff. rewrite Hd, Hnow. cbn.
    assert (0 < d - n)%Q as Hpos by exact (proj1 (Qlt_minus_iff n d) Hlt).
    assert (Qle_bool (inject_Z 0) (Qred (d - n)) = true) as Hle.
    { apply Qle_bool_iff. rewrite Qred_correct. apply Qlt_le_weak, Hpos. }
    rewrite Hle. exists (Qred (d - n)). split; [reflexivity|].
    rewrite Qred_correct. split; [exact Hpos | reflexivity].
  - intros d n Hd Hnow Hle. subst diff. rewrite Hd, Hnow. cbn.
    destruct (Qle_bool (inject_Z 0) (Qred (d - n))) eqn:Hb; [|reflexivity].
    apply Qle_bool_iff in Hb. rewrite Qred_correct in Hb.
    assert (d - n == 0)%Q as Hz.
    { apply Qle_antisym; [|exact Hb].
      pose proof (proj1 (Qle_minus_iff d n) Hle) as Hle'.
      apply Qle_minus_iff.
      assert (0 + - (d - n) == n + - d)%Q as Hr by ring.
      rewrite Hr. exact Hle'. }
    rewrite (Qred_zero _ Hz). reflexivity.
  - intros ms. destruct (JS.isFinite (Some diff)) eqn:Hf; [|discriminate].
    intros [= <-]. apply max_zero_nonneg. destruct diff; [discriminate|..]; reflexivity.
  - intros ->. reflexivity.
Qed.

Lemma C8_witness :
  let r := Scripted.throttled [("Retry-After", Scripted.date2050)] in
  getRetryAfterInMs Scripted.parseKnownDate Scripted.now2026 (Some r)
  = Some (JS.ofZ 756372480000).
Proof.
  cbn zeta.
  exact (proj1 (C8_retry_after_as_date Scripted.parseKnownDate Scripted.now2026
                  (Scripted.throttled [("Retry-After", Scripted.date2050)])
                  Scripted.date2050 eq_refl eq_refl eq_refl eq_refl eq_refl)).
Defined.

(** A date in the past resolves to 0. *)
Example retry_after_past_date :
  getRetryAfterInMs Scripted.parseKnownDate Scripted.now2026
    (Some (Scripted.throttled [("Retry-After", Scripted.date2015)])) = Some (JS.ofZ 0).
Proof. reflexivity. Qed.

(** ** Endpoint rotation *)



(** C2 fails on the code: with the endpoints [A; B], a throttled response
    and [retryCount] 1, the strategy reads index 2 of the list, which is
    [undefined], so the redirect keeps the path and the query of the request
    but starts with the text ["undefined"] and not with the base of B. *)
Theorem C2_redirect_at_retry_1 Date_parse Date_now :
  let info := {| retryCount := 1;
                 response := Some (Scripted.throttled [("retry-after-ms", "1000")]);
                 responseError := None |} in
  retry (roundRobinThrottlingStrategy Date_parse Date_now Scripted.demoHosts) info
  = Normal (Redirect "undefined/openai/deployments/gpt/chat/completions?api-version=2023-05-15")
  /\ Scripted.demoHosts !! 1%nat = Some "https://backup.openai.azure.com"
  /\ retry (roundRobinThrottlingStrategy Date_parse Date_now Scripted.demoHosts) info
     <> Normal (Redirect "https://backup.openai.azure.com/openai/deployments/gpt/chat/completions?api-version=2023-05-15").
Proof.
  cbn zeta. split; [reflexivity|]. split; [reflexivity|]. vm_compute. discriminate.
Qed.

(** At [retryCount] 0, the throttled first attempt, the redirect goes to
    the second endpoint, with the path and the query of the request. *)
Example redirect_at_retry_0 Date_parse Date_now :
  retry (roundRobinThrottlingStrategy Date_parse Date_now Scripted.demoHosts)
    {| retryCount := 0;
       response := Some (Scripted.throttled [("retry-after-ms", "1000")]);
       responseError := None |}
  = Normal (Redirect "https://backup.openai.azure.com/openai/deployments/gpt/chat/completions?api-version=2023-05-15").
Proof. reflexivity. Qed.



(** ** The claims on the retry loop *)

Lemma rethrown_not_RestError e :
  errorName e <> Some "RestError" -> rethrown e = true.
Proof.
  intros H. unfold rethrown, isRestError.
  destruct (errorName e) as [n|]; [|apply orb_true_r].
  destruct (String.eqb n "RestError") eqn:E; [|apply orb_true_r].
  apply String.eqb_eq in E. congruence.
Qed.

Lemma rethrown_RestError e : isRestError e = true -> rethrown e = false.
Proof.
  unfold rethrown. intros H. rewrite H.
  destruct e; [discriminate | reflexivity].
Qed.

Lemma whenTruthy_captured e : rethrown e = false -> whenTruthy (Some e) = Some e.
Proof.
  unfold rethrown. intros H. apply orb_false_elim in H as [H _].
  cbn. destruct (isTruthy e); [reflexivity | discriminate].
Qed.

Lemma no_strategy_in_attempt_start retryCount (sent : list Event) request :
  (forall e, In e sent -> e = Sent request) ->
  Forall (fun e => isConsulted e = false) (Attempted retryCount :: sent).
Proof.
  intros H. constructor; [reflexivity|].
  apply Forall_forall. intros e He. apply list_elem_of_In in He.
  rewrite (H e He). reflexivity.
Qed.

Section LoopClaims.

Context {World : Type}.
Variable next : PipelineRequest -> World -> Completion (option PipelineResponse) * World.
Variable aborted : World -> bool.
Variable delay : JS.number -> World -> Completion unit * World.

(** Strategies that skip are passed in order, and the loop goes on behind
    them. *)
Lemma strategiesLoop_skipped info request w skipping rest :
  Forall (skips info) skipping ->
  strategiesLoop delay (skipping ++ rest) info request w
  = let '(step, events, w') := strategiesLoop delay rest info request w in
    (step, map (fun s => Consulted (name s) (retryCount info)) skipping ++ events, w').
Proof.
  induction 1 as [|s skipping (m & Hm & Hs) _ IH]; cbn [app map].
  - destruct (strategiesLoop delay rest info request w) as [[? ?] ?]. reflexivity.
  - cbn [strategiesLoop]. rewrite Hm, Hs, IH.
    destruct (strategiesLoop delay rest info request w) as [[? ?] ?]. reflexivity.
Qed.

(** A wait is delayed, and the loop then goes to the next attempt with
    the request as it is. *)
Lemma strategiesLoop_wait info request w s rest ms :
  retry s info = Normal (Wait ms) ->
  whenWait (Some ms) = Some ms ->
  strategiesLoop delay (s :: rest) info request w
  = (Some match fst (delay ms w) with
          | Normal _ => Continue request
          | Abrupt e => Done (Abrupt e)
          end,
     [Consulted (name s) (retryCount info); Delayed ms], snd (delay ms w)).
Proof.
  intros Hr Hw. cbn [strategiesLoop]. rewrite Hr.
  cbn [Wait skipStrategy errorToThrow retryAfterInMs isTrue whenTruthy].
  rewrite Hw. destruct (delay ms w) as [[u|e] w']; reflexivity.
Qed.

End LoopClaims.

(** C10: in every attempt in which [next] throws an error whose name is
    not ["RestError"], the policy throws that error at once: whatever the
    abort signal, the ceiling and the strategies are, the pass ends the loop
    with that error after the one call of [next], and no strategy is asked. *)
Theorem C10_other_errors_rethrown {World : Type}
    (next : PipelineRequest -> World -> Completion (option PipelineResponse) * World)
    (aborted : World -> bool) (delay : JS.number -> World -> Completion unit * World)
    (strategies : list RetryStrategy) (options : RetryPolicyOptions)
    (fuel retryCount : nat) (request : PipelineRequest) (w : World) (e : Thrown)
    (sent : list Event) (w1 : World) :
  trySend next retryCount request w = (Abrupt e, sent, w1) ->
  errorName e <> Some "RestError" ->
  sent = [Sent request]
  /\ attempt next aborted delay strategies options retryCount request w
     = (Done (Abrupt e), [Attempted retryCount; Sent request], w1)
  /\ retryLoop next aborted delay strategies options (S fuel) retryCount request w
     = Some (Abrupt e, [Attempted retryCount; Sent request], w1).
Proof.
  intros Ht Hn.
  assert (sent = [Sent request]) as ->.
  { revert Ht. unfold trySend. destruct (retryCount =? 0)%nat; [discriminate|].
    destruct (next request w). intros [= _ <- _]. reflexivity. }
  assert (attempt next aborted delay strategies options retryCount request w
          = (Done (Abrupt e), [Attempted retryCount; Sent request], w1)) as E
    by (apply attempt_rethrown; [exact Ht | apply rethrown_not_RestError, Hn]).
  split; [reflexivity|]. split; [exact E | apply retryLoop_done, E].
Qed.

Lemma C10_witness :
  Scripted.attempt [Scripted.alwaysWait10] defaultOptions 1 Scripted.demoRequest
    Scripted.failingAborted
  = (Done (Abrupt (TypeError "Failed to fetch")),
     [Attempted 1; Sent Scripted.demoRequest],
     {| Scripted.pending := []; Scripted.calls := 1; Scripted.abortAt := Some 1%nat |}).
Proof.
  refine (proj1 (proj2 (C10_other_errors_rethrown Scripted.next Scripted.aborted
                   Scripted.delay [Scripted.alwaysWait10] defaultOptions 0 1
                   Scripted.demoRequest Scripted.failingAborted
                   (TypeError "Failed to fetch") [Sent Scripted.demoRequest]
                   {| Scripted.pending := []; Scripted.calls := 1;
                      Scripted.abortAt := Some 1%nat |} _ _))).
  - reflexivity.
  - discriminate.
Defined.

(** C6, as stated, fails: when [next] throws an error that is no
    [RestError] while the abort signal is triggered, the loop ends with that
    error and not with the [AbortError]. *)
Lemma C6_counterexample :
  resultOf Scripted.abortedRun = Some (Abrupt (TypeError "Failed to fetch"))
  /\ traceOf Scripted.abortedRun
     = [Attempted 0; Consulted "wait10" 0; Delayed (JS.ofZ 10);
        Attempted 1; Sent Scripted.demoRequest]
  /\ option_map Scripted.aborted (worldOf Scripted.abortedRun) = Some true
  /\ resultOf Scripted.abortedRun <> Some (Abrupt (AbortError "")).
Proof. repeat (split; [reflexivity|]). vm_compute. discriminate. Qed.

(** C6, amended: for every attempt that ends with a response or with a
    [RestError], if the abort signal is triggered when the attempt is over,
    the loop ends at once with an [AbortError]: no strategy is asked and
    [next] is not called again. *)
Theorem C6_cancellation_after_attempt {World : Type}
    (next : PipelineRequest -> World -> Completion (option PipelineResponse) * World)
    (aborted : World -> bool) (delay : JS.number -> World -> Completion unit * World)
    (strategies : list RetryStrategy) (options : RetryPolicyOptions)
    (fuel retryCount : nat) (request : PipelineRequest) (w : World)
    (result : Completion (option PipelineResponse)) (sent : list Event) (w1 : World) :
  trySend next retryCount request w = (result, sent, w1) ->
  (forall e, result = Abrupt e -> isRestError e = true) ->
  aborted w1 = true ->
  attempt next aborted delay strategies options retryCount request w
    = (Done (Abrupt (AbortError "")), Attempted retryCount :: sent, w1)
  /\ retryLoop next aborted delay strategies options (S fuel) retryCount request w
    = Some (Abrupt (AbortError ""), Attempted retryCount :: sent, w1)
  /\ Forall (fun ev => isConsulted ev = false) (Attempted retryCount :: sent)
  /\ (invocations (Attempted retryCount :: sent) <= 1)%nat.
Proof.
  intros Ht Hr Ha.
  assert (exists response responseError, capture result = inr (response, responseError))
    as (response & responseError & Hc).
  { destruct result as [r|e]; cbn; [eauto|].
    rewrite (rethrown_RestError e (Hr e eq_refl)). eauto. }
  assert (attempt next aborted delay strategies options retryCount request w
          = (Done (Abrupt (AbortError "")), Attempted retryCount :: sent, w1)) as E
    by (eapply attempt_aborted; eauto).
  split; [exact E|]. split; [apply retryLoop_done, E|].
  pose proof (trySend_events next retryCount request w) as Hs. rewrite Ht in Hs.
  split; [apply (no_strategy_in_attempt_start _ _ request), Hs|].
  revert Ht. unfold trySend. destruct (retryCount =? 0)%nat.
  - intros [= _ <- _]. vm_compute. lia.
  - destruct (next request w). intros [= _ <- _]. vm_compute. lia.
Qed.

Lemma C6_witness :
  Scripted.attempt [Scripted.alwaysWait10] defaultOptions 1 Scripted.demoRequest
    Scripted.restErrorAborted
  = (Done (Abrupt (AbortError "")), [Attempted 1; Sent Scripted.demoRequest],
     {| Scripted.pending := []; Scripted.calls := 1; Scripted.abortAt := Some 1%nat |}).
Proof.
  refine (proj1 (C6_cancellation_after_attempt Scripted.next Scripted.aborted
                   Scripted.delay [Scripted.alwaysWait10] defaultOptions 0 1
                   Scripted.demoRequest Scripted.restErrorAborted
                   (Abrupt (ErrorObject (Some "RestError") "Service Unavailable" None))
                   [Sent Scripted.demoRequest]
                   {| Scripted.pending := []; Scripted.calls := 1;
                      Scripted.abortAt := Some 1%nat |} _ _ _)).
  - reflexivity.
  - intros e [= <-]. reflexivity.
  - reflexivity.
Defined.

(** C7, as stated, fails: with [maxRetries] 3, when the abort signal is
    triggered during the last call of [next], the attempt at the ceiling has
    a response and no error, yet the policy throws the [AbortError] instead
    of returning the response. *)
Lemma C7_counterexample :
  traceOf Scripted.ceilingAbortedRun
  = [Attempted 0; Consulted "wait10" 0; Delayed (JS.ofZ 10);
     Attempted 1; Sent Scripted.demoRequest; Consulted "wait10" 1; Delayed (JS.ofZ 10);
     Attempted 2; Sent Scripted.demoRequest; Consulted "wait10" 2; Delayed (JS.ofZ 10);
     Attempted 3; Sent Scripted.demoRequest]
  /\ fst (Scripted.next Scripted.demoRequest
           {| Scripted.pending := map (fun body => Normal (Some (Scripted.ok body))) ["c"; "d"];
              Scripted.calls := 2; Scripted.abortAt := Some 3%nat |})
     = Normal (Some (Scripted.ok "c"))
  /\ resultOf Scripted.ceilingAbortedRun = Some (Abrupt (AbortError ""))
  /\ resultOf Scripted.ceilingAbortedRun <> Some (Normal (Scripted.ok "c")).
Proof. repeat (split; [reflexivity|]). vm_compute. discriminate. Qed.

(** C7, amended: for every attempt at the retry ceiling
    ([retryCount >= maxRetries]) after which the abort signal is not
    triggered, the policy ends: an error thrown by [next] in this attempt is
    thrown, otherwise the response, if there is one, is returned, otherwise
    the error "Maximum retries reached with no response or error to throw"
    is thrown. No strategy is asked in this attempt. *)
Theorem C7_retry_ceiling {World : Type}
    (next : PipelineRequest -> World -> Completion (option PipelineResponse) * World)
    (aborted : World -> bool) (delay : JS.number -> World -> Completion unit * World)
    (strategies : list RetryStrategy) (options : RetryPolicyOptions)
    (fuel retryCount : nat) (request : PipelineRequest) (w : World)
    (result : Completion (option PipelineResponse)) (sent : list Event) (w1 : World) :
  trySend next retryCount request w = (result, sent, w1) ->
  retryCeiling options <= Z.of_nat retryCount ->
  aborted w1 = false ->
  let outcome :=
    match result with
    | Abrupt e => Abrupt e
    | Normal (Some r) => Normal r
    | Normal None =>
        Abrupt (Error "Maximum retries reached with no response or error to throw")
    end in
  attempt next aborted delay strategies options retryCount request w
    = (Done outcome, Attempted retryCount :: sent, w1)
  /\ retryLoop next aborted delay strategies options (S fuel) retryCount request w
    = Some (outcome, Attempted retryCount :: sent, w1)
  /\ Forall (fun ev => isConsulted ev = false) (Attempted retryCount :: sent).
Proof.
  intros Ht Hm Ha outcome.
  assert (attempt next aborted delay strategies options retryCount request w
          = (Done outcome, Attempted retryCount :: sent, w1)) as E.
  { subst outcome. destruct result as [[r|]|e].
    - erewrite attempt_ceiling; eauto. reflexivity.
    - erewrite attempt_ceiling; eauto. reflexivity.
    - destruct (rethrown e) eqn:Hr.
      + eapply attempt_rethrown; eauto.
      + erewrite attempt_ceiling; eauto; [|cbn; rewrite Hr; reflexivity].
        unfold atCeiling. rewrite (whenTruthy_captured e Hr). reflexivity. }
  split; [exact E|]. split; [apply retryLoop_done, E|].
  pose proof (trySend_events next retryCount request w) as Hs. rewrite Ht in Hs.
  apply (no_strategy_in_attempt_start _ _ request), Hs.
Qed.

Lemma C7_witness :
  Scripted.attempt [Scripted.alwaysWait10] defaultOptions 3 Scripted.demoRequest
    Scripted.oneAnswer
  = (Done (Normal (Scripted.ok "a")), [Attempted 3; Sent Scripted.demoRequest],
     {| Scripted.pending := []; Scripted.calls := 1; Scripted.abortAt := None |}).
Proof.
  refine (proj1 (C7_retry_ceiling Scripted.next Scripted.aborted Scripted.delay
                   [Scripted.alwaysWait10] defaultOptions 0 3 Scripted.demoRequest
                   Scripted.oneAnswer (Normal (Some (Scripted.ok "a")))
                   [Sent Scripted.demoRequest]
                   {| Scripted.pending := []; Scripted.calls := 1;
                      Scripted.abortAt := None |} _ _ _)).
  - reflexivity.
  - vm_compute. discriminate.
  - reflexivity.
Defined.

(** One pass in which the first strategy gives a wait: the delay, then the
    next attempt with the request as it is. *)
Lemma attempt_wait {World : Type}
    (next : PipelineRequest -> World -> Completion (option PipelineResponse) * World)
    (aborted : World -> bool) (delay : JS.number -> World -> Completion unit * World)
    (s : RetryStrategy) (rest : list RetryStrategy) (options : RetryPolicyOptions)
    (retryCount : nat) (request : PipelineRequest) (w : World)
    result sent w1 response responseError ms :
  trySend next retryCount request w = (result, sent, w1) ->
  capture result = inr (response, responseError) ->
  aborted w1 = false ->
  Z.of_nat retryCount < retryCeiling options ->
  retry s {| retryCount := retryCount; response := response;
             responseError := responseError |} = Normal (Wait ms) ->
  whenWait (Some ms) = Some ms ->
  attempt next aborted delay (s :: rest) options retryCount request w
  = (match fst (delay ms w1) with
     | Normal _ => Continue request
     | Abrupt e => Done (Abrupt e)
     end,
     (Attempted retryCount :: sent) ++ [Consulted (name s) retryCount; Delayed ms],
     snd (delay ms w1)).
Proof.
  intros Ht Hc Ha Hm Hr Hw.
  erewrite attempt_strategies by eassumption.
  rewrite (strategiesLoop_wait delay _ request w1 s rest ms Hr Hw). reflexivity.
Qed.

(** C3, as stated, fails: with [maxRetries] 3 and a strategy that always
    gives [Wait(10)], the loop makes 4 attempts, but the first one is not
    sent: [next] is called 3 times, not 4, and the third answer is returned. *)
Lemma C3_counterexample :
  resultOf Scripted.waitRun = Some (Normal (Scripted.ok "c"))
  /\ attempts (traceOf Scripted.waitRun) = 4%nat
  /\ invocations (traceOf Scripted.waitRun) = 3%nat
  /\ invocations (traceOf Scripted.waitRun) <> 4%nat.
Proof. repeat (split; [reflexivity|]). vm_compute. discriminate. Qed.

(** C3, amended: with [maxRetries] 3 and a single strategy that always
    gives [Wait(10)], when the abort signal stays quiet, the delays complete
    and [next] answers with a response, the loop makes exactly 4 attempts, of
    which the first is the simulated 429 response and is not sent, so [next]
    is called exactly 3 times; the response of the last attempt is then
    returned. *)
Theorem C3_attempts_and_invocations {World : Type}
    (next : PipelineRequest -> World -> Completion (option PipelineResponse) * World)
    (aborted : World -> bool) (delay : JS.number -> World -> Completion unit * World)
    (s : RetryStrategy) (request : PipelineRequest) (w : World) :
  (forall info, retry s info = Normal (Wait (JS.ofZ 10))) ->
  (forall w', aborted w' = false) ->
  (forall ms w', fst (delay ms w') = Normal tt) ->
  (forall req w', exists r, fst (next req w') = Normal (Some r)) ->
  let ten := JS.ofZ 10 in
  let w1 := snd (delay ten w) in
  let w2 := snd (delay ten (snd (next request w1))) in
  let w3 := snd (delay ten (snd (next request w2))) in
  let run := sendRequest next aborted delay [s] {| maxRetries := Some 3 |} request w in
  exists last,
    fst (next request w3) = Normal (Some last)
    /\ run = Some (Normal last,
                   [Attempted 0; Consulted (name s) 0; Delayed ten;
                    Attempted 1; Sent request; Consulted (name s) 1; Delayed ten;
                    Attempted 2; Sent request; Consulted (name s) 2; Delayed ten;
                    Attempted 3; Sent request],
                   snd (next request w3))
    /\ attempts (traceOf run) = 4%nat
    /\ invocations (traceOf run) = 3%nat.
Proof.
  intros Hs Ha Hd Hn ten w1 w2 w3 run.
  destruct (Hn request w1) as [r1 H1]. destruct (Hn request w2) as [r2 H2].
  destruct (Hn request w3) as [last H3].
  assert (attempt next aborted delay [s] {| maxRetries := Some 3 |} 0 request w
          = (Continue request, [Attempted 0; Consulted (name s) 0; Delayed ten], w1)) as E0.
  { erewrite attempt_wait;
      [ | apply trySend_first | reflexivity | apply Ha | cbn; lia | apply Hs | reflexivity ].
    rewrite Hd. reflexivity. }
  assert (forall k wk rk, (k = 1 \/ k = 2)%nat ->
            fst (next request wk) = Normal (Some rk) ->
            attempt next aborted delay [s] {| maxRetries := Some 3 |} k request wk
            = (Continue request,
               [Attempted k; Sent request; Consulted (name s) k; Delayed ten],
               snd (delay ten (snd (next request wk))))) as Ek.
  { intros k wk rk Hk Hr.
    erewrite attempt_wait;
      [ | apply trySend_later; lia | rewrite Hr; reflexivity | apply Ha
        | destruct Hk as [-> | ->]; cbn; lia | apply Hs | reflexivity ].
    rewrite Hd. reflexivity. }
  assert (attempt next aborted delay [s] {| maxRetries := Some 3 |} 3 request w3
          = (Done (Normal last), [Attempted 3; Sent request], snd (next request w3))) as E3.
  { erewrite attempt_ceiling;
      [ | apply trySend_later; lia | rewrite H3; reflexivity | apply Ha | cbn; lia ].
    reflexivity. }
  assert (run = Some (Normal last,
                   [Attempted 0; Consulted (name s) 0; Delayed ten;
                    Attempted 1; Sent request; Consulted (name s) 1; Delayed ten;
                    Attempted 2; Sent request; Consulted (name s) 2; Delayed ten;
                    Attempted 3; Sent request],
                   snd (next request w3))) as E.
  { subst run. unfold sendRequest.
    change (S (Z.to_nat (retryCeiling {| maxRetries := Some 3 |}))) with 4%nat.
    rewrite (retryLoop_continue _ _ _ _ _ _ _ _ _ _ _ _ E0).
    rewrite (retryLoop_continue _ _ _ _ _ _ _ _ _ _ _ _ (Ek 1%nat w1 r1 (or_introl eq_refl) H1)).
    fold w2.
    rewrite (retryLoop_continue _ _ _ _ _ _ _ _ _ _ _ _ (Ek 2%nat w2 r2 (or_intror eq_refl) H2)).
    fold w3.
    rewrite (retryLoop_done _ _ _ _ _ _ _ _ _ _ _ _ E3). reflexivity. }
  exists last. split; [exact H3|]. split; [exact E|].
  rewrite E. split; reflexivity.
Qed.

Lemma C3_witness :
  sendRequest Scripted.answering Scripted.quiet Scripted.prompt
    [Scripted.alwaysWait10] {| maxRetries := Some 3 |} Scripted.demoRequest 0%nat
  = Some (Normal (Scripted.answer Scripted.demoRequest 2),
          [Attempted 0; Consulted "wait10" 0; Delayed (JS.ofZ 10);
           Attempted 1; Sent Scripted.demoRequest; Consulted "wait10" 1; Delayed (JS.ofZ 10);
           Attempted 2; Sent Scripted.demoRequest; Consulted "wait10" 2; Delayed (JS.ofZ 10);
           Attempted 3; Sent Scripted.demoRequest],
          3%nat).
Proof.
  pose proof (C3_attempts_and_invocations Scripted.answering Scripted.quiet
                Scripted.prompt Scripted.alwaysWait10 Scripted.demoRequest 0%nat
                (fun _ => eq_refl) (fun _ => eq_refl) (fun _ _ => eq_refl)
                (fun req calls => ex_intro _ (Scripted.answer req calls) eq_refl)) as H.
  cbv zeta in H. destruct H as (last & Hlast & Hrun & _).
  injection Hlast as <-. exact Hrun.
Defined.

(** * Further properties *)

(** ** The parts of a URL *)

Lemma spanUntil_spec stop cs : forall taken rest,
  URL.spanUntil stop cs = (taken, rest) ->
  cs = taken ++ rest
  /\ Forall (fun c => stop c = false) taken
  /\ (rest = [] \/ exists c rest', rest = c :: rest' /\ stop c = true).
Proof.
  induction cs as [|c cs IH]; intros taken rest; cbn.
  - intros [= <- <-]. repeat split; [constructor | left; reflexivity].
  - destruct (stop c) eqn:Hc.
    + intros [= <- <-]. repeat split; [constructor | right; eauto].
    + destruct (URL.spanUntil stop cs) as [t r]. intros [= <- <-].
      destruct (IH t r eq_refl) as (-> & Ht & Hr).
      repeat split; [constructor; assumption | exact Hr].
Qed.

Lemma schemeChar_not_colon c : URL.isSchemeChar c = true -> Ascii.eqb c ":" = false.
Proof.
  intros H. destruct (Ascii.eqb_spec c ":") as [->|]; [|reflexivity].
  vm_compute in H. discriminate.
Qed.

Lemma splitScheme_spec cs : forall scheme rest,
  URL.splitScheme cs = Some (scheme, rest) ->
  cs = scheme ++ schemeSeparator ++ rest
  /\ Forall (fun c => URL.isSchemeChar c = true) scheme.
Proof.
  induction cs as [|c cs IH]; intros scheme rest; cbn; [discriminate|].
  destruct (Ascii.eqb_spec c ":") as [->|Hc].
  - destruct cs as [|s1 [|s2 rest']]; try discriminate.
    destruct (Ascii.eqb_spec s1 "/") as [->|]; [|discriminate].
    destruct (Ascii.eqb_spec s2 "/") as [->|]; [|discriminate].
    cbn. intros [= <- <-]. split; [reflexivity | constructor].
  - destruct (URL.isSchemeChar c) eqn:Hs; [|discriminate].
    destruct (URL.splitScheme cs) as [[scheme' rest']|]; [|discriminate].
    intros [= <- <-]. destruct (IH scheme' rest' eq_refl) as (-> & Hf).
    split; [reflexivity | constructor; assumption].
Qed.

Lemma only_slash c :
  URL.isOneOf "/?#" c = true -> URL.isOneOf "?#" c = false -> c = "/"%char.
Proof.
  unfold URL.isOneOf. cbn.
  destruct (Ascii.eqb_spec c "/") as [->|]; [reflexivity|].
  cbn. intros ->. discriminate.
Qed.

Lemma only_question c :
  URL.isOneOf "?#" c = true -> URL.isOneOf "#" c = false -> c = "?"%char.
Proof.
  unfold URL.isOneOf. cbn.
  destruct (Ascii.eqb_spec c "?") as [->|]; [reflexivity|].
  cbn. intros ->. discriminate.
Qed.

Lemma isEmpty_false {A} (l : list A) : JS.isEmpty l = false -> l <> [].
Proof. destruct l; [discriminate | congruence]. Qed.

(** What [URL.parse] gives: the origin is a scheme, [://] and an authority;
    the path and the query are well formed. *)
Lemma parse_spec s u :
  URL.parse s = Some u ->
  exists scheme authority path query,
    scheme <> [] /\ Forall (fun c => URL.isSchemeChar c = true) scheme
    /\ authority <> [] /\ noneOf "/?#" authority
    /\ URL.origin u = string_of_list_ascii (scheme ++ schemeSeparator ++ authority)
    /\ URL.pathname u = string_of_list_ascii path /\ isPath path
    /\ URL.search u = string_of_list_ascii query /\ isSearch query.
Proof.
  unfold URL.parse.
  destruct (URL.splitScheme (list_ascii_of_string s)) as [[scheme rest]|] eqn:Hs;
    [|discriminate].
  destruct (URL.spanUntil (URL.isOneOf "/?#") rest) as [authority r1] eqn:H1.
  destruct (URL.spanUntil (URL.isOneOf "?#") r1) as [path r2] eqn:H2.
  destruct (URL.spanUntil (URL.isOneOf "#") r2) as [query fragment] eqn:H3.
  destruct (JS.isEmpty scheme || JS.isEmpty authority) eqn:He; [discriminate|].
  apply orb_false_elim in He as [Hes Hea]. intros [= <-]. cbn.
  destruct (splitScheme_spec _ _ _ Hs) as (_ & Hsch).
  destruct (spanUntil_spec _ _ _ _ H1) as (_ & Hauth & Hr1).
  destruct (spanUntil_spec _ _ _ _ H2) as (E2 & Hpath & Hr2).
  destruct (spanUntil_spec _ _ _ _ H3) as (E3 & Hquery & _).
  exists scheme, authority,
    (if JS.isEmpty path then ["/"%char] else path),
    (match query with [_] => [] | _ => query end).
  split; [apply isEmpty_false, Hes|]. split; [exact Hsch|].
  split; [apply isEmpty_false, Hea|]. split; [exact Hauth|].
  split; [reflexivity|]. split; [destruct path; reflexivity|]. split; [|split].
  - destruct path as [|c path]; cbn.
    + split; [eauto | repeat constructor].
    + split; [|exact Hpath].
      destruct Hr1 as [-> | (c1 & r1' & -> & Hc1)]; [discriminate|].
      injection E2 as -> _. inversion Hpath; subst.
      rewrite (only_slash c Hc1) by assumption. eauto.
  - destruct query as [|c [|c' query]]; reflexivity.
  - destruct query as [|c [|c' query]].
    + split; [left; reflexivity | constructor].
    + split; [left; reflexivity | constructor].
    + split; [|exact Hquery]. right.
      destruct Hr2 as [-> | (c2 & r2' & -> & Hc2)]; [discriminate|].
      injection E3 as -> _. inversion Hquery; subst.
      rewrite (only_question c Hc2) by assumption. eauto.
Qed.

(** ** Throttling detection and the rotation strategy *)

Lemma isThrottlingStatus_iff code :
  isThrottlingStatus code = true <-> code = 429 \/ code = 503.
Proof.
  unfold isThrottlingStatus. cbn. rewrite orb_false_r, orb_true_iff, !Z.eqb_eq.
  reflexivity.
Qed.

(** X1: a response is a throttling response exactly when its status is 429
    or 503 and [getRetryAfterInMs] gives a finite number; without a response
    there is no throttling. *)
Theorem throttling_iff_status_and_finite_wait
    (Date_parse : string -> JS.number) (Date_now : JS.number) (r : PipelineResponse) :
  (isThrottlingRetryResponse Date_parse Date_now (Some r) = true <->
   (status r = 429 \/ status r = 503)
   /\ exists q, getRetryAfterInMs Date_parse Date_now (Some r) = Some (JS.Fin q))
  /\ isThrottlingRetryResponse Date_parse Date_now None = false.
Proof.
  split; [|reflexivity]. unfold isThrottlingRetryResponse. split.
  - intros H. split.
    + apply isThrottlingStatus_iff.
      destruct (isThrottlingStatus (status r)) eqn:Hs; [reflexivity|].
      unfold getRetryAfterInMs in H. rewrite Hs in H. discriminate.
    + destruct (getRetryAfterInMs Date_parse Date_now (Some r)) as [[| | |q]|];
        try discriminate. eauto.
  - intros (_ & q & ->). reflexivity.
Qed.

(** X2: the rotation strategy only ever skips or redirects: it skips
    exactly when the response is not a throttling response, and otherwise
    gives a redirect and nothing else, or fails on a request URL that does
    not parse. It never asks for a wait and never gives an error to throw. *)
Theorem strategy_skips_or_redirects
    (Date_parse : string -> JS.number) (Date_now : JS.number)
    (openAiHosts : list string) (info : RetryInformation) :
  (isThrottlingRetryResponse Date_parse Date_now (response info) = false
   /\ retry (roundRobinThrottlingStrategy Date_parse Date_now openAiHosts) info
      = Normal Skip)
  \/ (isThrottlingRetryResponse Date_parse Date_now (response info) = true
      /\ ((exists target,
             retry (roundRobinThrottlingStrategy Date_parse Date_now openAiHosts) info
             = Normal (Redirect target))
          \/ retry (roundRobinThrottlingStrategy Date_parse Date_now openAiHosts) info
             = Abrupt (TypeError "Invalid URL"))).
Proof.
  cbn. destruct (isThrottlingRetryResponse Date_parse Date_now (response info)) eqn:Ht.
  - right. split; [reflexivity|]. cbn.
    destruct (response info) as [r|]; [|discriminate].
    destruct (URL.parse (url (request r))); [left; eauto | right; reflexivity].
  - left. split; reflexivity.
Qed.

Lemma strategy_redirect Date_parse Date_now openAiHosts info r u :
  response info = Some r ->
  isThrottlingRetryResponse Date_parse Date_now (Some r) = true ->
  URL.parse (url (request r)) = Some u ->
  retry (roundRobinThrottlingStrategy Date_parse Date_now openAiHosts) info
  = Normal (Redirect (JS.toStringOrUndefined (backupEndpoint openAiHosts (retryCount info))
                      ++ URL.pathname u ++ URL.search u)%string).
Proof. intros Hr Ht Hu. cbn. rewrite Hr, Ht. cbn. rewrite Hu. reflexivity. Qed.

(** X3: when [retryCount % length + 1] is an index of the list, the
    rotation selects the endpoint at that index, which is never the first
    one: the strategy redirects a throttled response to that endpoint
    followed by the path and the query of the request, and [switchEndpoint]
    rewrites the URL of the request in the same way. *)
Theorem rotation_in_range
    (Date_parse : string -> JS.number) (Date_now : JS.number)
    (openAiHosts : list string) (retryCount : nat) :
  (retryCount mod length openAiHosts + 1 < length openAiHosts)%nat ->
  exists host,
    openAiHosts !! (retryCount mod length openAiHosts + 1)%nat = Some host
    /\ In host (tl openAiHosts)
    /\ (forall r u responseError,
          isThrottlingRetryResponse Date_parse Date_now (Some r) = true ->
          URL.parse (url (request r)) = Some u ->
          retry (roundRobinThrottlingStrategy Date_parse Date_now openAiHosts)
            {| retryCount := retryCount; response := Some r;
               responseError := responseError |}
          = Normal (Redirect (host ++ URL.pathname u ++ URL.search u)%string))
    /\ (forall request u,
          retryCount <> 0%nat ->
          URL.parse (url request) = Some u ->
          switchEndpoint openAiHosts retryCount request
          = Normal {| url := (host ++ URL.pathname u ++ URL.search u)%string;
                      requestId := requestId request |}).
Proof.
  intros Hlt.
  destruct (lookup_lt_is_Some_2 openAiHosts _ Hlt) as [host Hh].
  assert (backupEndpoint openAiHosts retryCount = Some host) as Hb.
  { unfold backupEndpoint, rotationIndex.
    destruct (length openAiHosts =? 0)%nat eqn:E; [apply Nat.eqb_eq in E; lia | exact Hh]. }
  exists host. split; [exact Hh|]. split; [|split].
  - destruct openAiHosts as [|first rest]; [cbn in Hlt; lia|].
    rewrite Nat.add_1_r in Hh. cbn in Hh. cbn [tl].
    apply list_elem_of_In, list_elem_of_lookup. eauto.
  - intros r u responseError Ht Hu.
    erewrite strategy_redirect; [|reflexivity | exact Ht | exact Hu].
    cbn. rewrite Hb. reflexivity.
  - intros request u H0 Hu. unfold switchEndpoint.
    destruct retryCount as [|k]; [congruence|]. cbn [Nat.eqb]. rewrite Hu.
    fold (backupEndpoint openAiHosts (S k)). rewrite Hb. reflexivity.
Qed.

Lemma rotation_in_range_witness :
  exists host,
    ["https://a.example"; "https://b.example"; "https://c.example"] !! 2%nat = Some host
    /\ In host ["https://b.example"; "https://c.example"].
Proof.
  destruct (rotation_in_range Scripted.noDate Scripted.epoch
              ["https://a.example"; "https://b.example"; "https://c.example"] 1)
    as (host & Hh & Hi & _).
  - cbn. lia.
  - exists host. split; [exact Hh | exact Hi].
Defined.

(** X5: a numeric header that is not finite still wins over the headers
    behind it: with [retry-after-ms] parsed to an infinite number, the wait
    is that number and the response is not a throttling response, whatever
    [x-ms-retry-after-ms] and [Retry-After] hold. *)
Theorem infinite_wait_is_not_throttling
    (Date_parse : string -> JS.number) (Date_now : JS.number)
    (r : PipelineResponse) (x : JS.number) :
  isThrottlingStatus (status r) = true ->
  parseHeaderValueAsNumber r "retry-after-ms" = Some x ->
  JS.isFinite (Some x) = false ->
  getRetryAfterInMs Date_parse Date_now (Some r) = Some x
  /\ isThrottlingRetryResponse Date_parse Date_now (Some r) = false.
Proof.
  intros Hs Hp Hf.
  assert (getRetryAfterInMs Date_parse Date_now (Some r) = Some x) as E.
  { rewrite getRetryAfterInMs_order by exact Hs. rewrite Hp.
    destruct x; try reflexivity; discriminate. }
  split; [exact E|]. unfold isThrottlingRetryResponse. rewrite E. exact Hf.
Qed.

Lemma infinite_wait_is_not_throttling_witness :
  getRetryAfterInMs Scripted.parseKnownDate Scripted.now2026
    (Some (Scripted.throttled [("retry-after-ms", "Infinity"); ("Retry-After", "2")]))
  = Some JS.PosInf
  /\ isThrottlingRetryResponse Scripted.parseKnownDate Scripted.now2026
       (Some (Scripted.throttled [("retry-after-ms", "Infinity"); ("Retry-After", "2")]))
     = false.
Proof.
  exact (infinite_wait_is_not_throttling Scripted.parseKnownDate Scripted.now2026
           (Scripted.throttled [("retry-after-ms", "Infinity"); ("Retry-After", "2")])
           JS.PosInf eq_refl eq_refl eq_refl).
Defined.

(** X6: a numeric header is not clamped: a negative [retry-after-ms]
    gives a negative wait of the same value, and the response counts as a
    throttling response (only the date form of [Retry-After] is held at 0). *)
Theorem negative_wait_is_kept
    (Date_parse : string -> JS.number) (Date_now : JS.number)
    (r : PipelineResponse) (q : Q) :
  isThrottlingStatus (status r) = true ->
  parseHeaderValueAsNumber r "retry-after-ms" = Some (JS.Fin q) ->
  (q < 0)%Q ->
  exists ms,
    getRetryAfterInMs Date_parse Date_now (Some r) = Some (JS.Fin ms)
    /\ (ms == q)%Q /\ (ms < 0)%Q
    /\ isThrottlingRetryResponse Date_parse Date_now (Some r) = true.
Proof.
  intros Hs Hp Hq.
  assert (getRetryAfterInMs Date_parse Date_now (Some r)
          = Some (JS.Fin (Qred (q * inject_Z 1)))) as E.
  { rewrite getRetryAfterInMs_order by exact Hs. rewrite Hp. reflexivity. }
  assert (Qred (q * inject_Z 1) == q)%Q as Hv.
  { rewrite Qred_correct. change (inject_Z 1) with 1%Q. ring. }
  exists (Qred (q * inject_Z 1)). split; [exact E|]. split; [exact Hv|].
  split; [rewrite Hv; exact Hq|].
  unfold isThrottlingRetryResponse. rewrite E. reflexivity.
Qed.

Lemma negative_wait_is_kept_witness :
  exists ms,
    getRetryAfterInMs Scripted.parseKnownDate Scripted.now2026
      (Some (Scripted.throttled [("retry-after-ms", "-5")])) = Some (JS.Fin ms)
    /\ (ms == -5 # 1)%Q /\ (ms < 0)%Q
    /\ isThrottlingRetryResponse Scripted.parseKnownDate Scripted.now2026
         (Some (Scripted.throttled [("retry-after-ms", "-5")])) = true.
Proof.
  refine (negative_wait_is_kept Scripted.parseKnownDate Scripted.now2026
            (Scripted.throttled [("retry-after-ms", "-5")]) (-5 # 1) eq_refl eq_refl _).
  reflexivity.
Defined.

Lemma isFinite_sub_finite (x : JS.number) (n : Q) :
  JS.isFinite (Some (JS.sub x (JS.Fin n))) = JS.isFinite (Some x).
Proof. destruct x; reflexivity. Qed.

Lemma isFinite_retryAfterDate Date_parse (n1 n2 : Q) r :
  JS.isFinite (retryAfterDate Date_parse (JS.Fin n1) r)
  = JS.isFinite (retryAfterDate Date_parse (JS.Fin n2) r).
Proof.
  unfold retryAfterDate.
  destruct (headers_get (headers r) RetryAfterHeader) as [v|]; [|reflexivity].
  destruct (negb (JS.nonEmpty v)); [reflexivity|].
  rewrite !isFinite_sub_finite.
  destruct (Date_parse v) as [| | |d]; try reflexivity.
  cbn. destruct (Qle_bool (inject_Z 0) (Qred (d - n1))), (Qle_bool (inject_Z 0) (Qred (d - n2)));
    reflexivity.
Qed.

(** X7: the verdict on throttling does not depend on the reading of the
    clock: for two finite readings, [isThrottlingRetryResponse] agrees on
    every response, and so does the rotation strategy on everything it is
    told. *)
Theorem throttling_independent_of_clock
    (Date_parse : string -> JS.number) (n1 n2 : Q) :
  (forall answer,
     isThrottlingRetryResponse Date_parse (JS.Fin n1) answer
     = isThrottlingRetryResponse Date_parse (JS.Fin n2) answer)
  /\ (forall openAiHosts info,
        retry (roundRobinThrottlingStrategy Date_parse (JS.Fin n1) openAiHosts) info
        = retry (roundRobinThrottlingStrategy Date_parse (JS.Fin n2) openAiHosts) info).
Proof.
  assert (forall answer, isThrottlingRetryResponse Date_parse (JS.Fin n1) answer
                         = isThrottlingRetryResponse Date_parse (JS.Fin n2) answer) as H.
  { intros [r|]; [|reflexivity]. unfold isThrottlingRetryResponse, getRetryAfterInMs.
    destruct (negb (isThrottlingStatus (status r))); [reflexivity|].
    destruct (firstRetryAfterValue r AllRetryAfterHeaders); [reflexivity|].
    apply isFinite_retryAfterDate. }
  split; [apply H|]. intros openAiHosts info. cbn. rewrite (H (response info)).
  reflexivity.
Qed.

(** ** Counting the events of a trace *)

Lemma count_cons (p : Event -> bool) e t :
  length (filter (fun e => p e = true) (e :: t))
  = ((if p e then 1 else 0) + length (filter (fun e => p e = true) t))%nat.
Proof.
  rewrite filter_cons. destruct (p e) eqn:E; case_decide; cbn; congruence.
Qed.

Lemma count_app (p : Event -> bool) a b :
  length (filter (fun e => p e = true) (a ++ b))
  = (length (filter (fun e => p e = true) a)
     + length (filter (fun e => p e = true) b))%nat.
Proof. rewrite filter_app, length_app. reflexivity. Qed.

Lemma count_consulting (p : Event -> bool) retryCount l :
  (forall s, p (consulting retryCount s) = false) ->
  length (filter (fun e => p e = true) (map (consulting retryCount) l)) = 0%nat.
Proof.
  intros H. induction l as [|s l IH]; [reflexivity|].
  cbn [map]. rewrite count_cons, H, IH. reflexivity.
Qed.

Lemma sentRequests_app a b : sentRequests (a ++ b) = sentRequests a ++ sentRequests b.
Proof. apply flat_map_app. Qed.

Lemma sentRequests_consulting retryCount l :
  sentRequests (map (consulting retryCount) l) = [].
Proof. induction l as [|s l IH]; [reflexivity | exact IH]. Qed.

Lemma whenNonEmpty_Some o target :
  whenNonEmpty o = Some target -> o = Some target /\ target <> "".
Proof.
  destruct o as [v|]; [|discriminate]. cbn.
  destruct v; cbn; [discriminate|]. intros [= <-]. split; [reflexivity | discriminate].
Qed.

(** ** One pass over the strategies *)

Section StrategiesShape.

Context {World : Type}.
Variable delay : JS.number -> World -> Completion unit * World.

(** The shape of one pass over the strategies: those asked are a prefix of
    the list, in order; behind them there is at most one delay; the loop
    runs to its end only when all were asked; the request goes on as it is
    or with the redirect of a strategy that was asked. *)
Lemma strategiesLoop_shape info request : forall remaining w step events w',
  strategiesLoop delay remaining info request w = (step, events, w') ->
  exists asked notAsked behind,
    remaining = asked ++ notAsked
    /\ events = map (consulting (retryCount info)) asked ++ behind
    /\ (behind = [] \/ exists ms, behind = [Delayed ms])
    /\ (step = None -> notAsked = [] /\ behind = [] /\ w' = w)
    /\ (forall request', step = Some (Continue request') ->
          request' = request
          \/ (behind = []
              /\ exists s m,
                   In s asked /\ retry s info = Normal m
                   /\ redirectTo m = Some (url request')
                   /\ request' = {| url := url request';
                                    requestId := requestId request |})).
Proof.
  induction remaining as [|s rest IH]; intros w step events w'.
  - cbn. intros [= <- <- <-]. exists [], [], []. repeat split; auto. discriminate.
  - cbn [strategiesLoop].
    match goal with |- _ -> ?g => set (G := g) end.
    assert (forall step0 events0 w0,
              strategiesLoop delay rest info request w = (step0, events0, w0) ->
              (step0, Consulted (name s) (retryCount info) :: events0, w0)
              = (step, events, w') -> G) as Hrec.
    { subst G. intros step0 events0 w0 E [= <- <- <-].
      destruct (IH _ _ _ _ E) as (asked & notAsked & behind & -> & -> & Hb & Hn & Hc).
      exists (s :: asked), notAsked, behind.
      split; [reflexivity|]. split; [reflexivity|]. split; [exact Hb|].
      split; [exact Hn|]. intros request' Hs.
      destruct (Hc request' Hs) as [-> | (-> & s' & m & Hi & Hm & Hr & Hq)];
        [left; reflexivity|].
      right. split; [reflexivity|]. exists s', m. repeat split; auto. right. exact Hi. }
    assert (forall result behind,
              (behind = [] \/ exists ms, behind = [Delayed ms]) ->
              (forall request', result = Continue request' ->
                 request' = request
                 \/ (behind = []
                     /\ exists m, retry s info = Normal m
                          /\ redirectTo m = Some (url request')
                          /\ request' = {| url := url request';
                                           requestId := requestId request |})) ->
              forall w0,
              (Some result, Consulted (name s) (retryCount info) :: behind, w0)
              = (step, events, w') -> G) as Hstop.
    { subst G. intros result behind Hb Hc w0 [= <- <- <-].
      exists [s], rest, behind.
      split; [reflexivity|]. split; [reflexivity|]. split; [exact Hb|].
      split; [discriminate|]. intros request' [= ->].
      destruct (Hc request' eq_refl) as [-> | (-> & m & Hm & Hr & Hq)];
        [left; reflexivity|].
      right. split; [reflexivity|]. exists s, m. repeat split; auto. left. reflexivity. }
    destruct (retry s info) as [m|e] eqn:Hm.
    + destruct (isTrue (skipStrategy m)).
      { destruct (strategiesLoop delay rest info request w) as [[step0 events0] w0] eqn:E.
        apply (Hrec _ _ _ eq_refl). }
      destruct (whenTruthy (errorToThrow m)) as [e|].
      { apply (Hstop _ []); [left; reflexivity | discriminate]. }
      destruct (whenWait (retryAfterInMs m)) as [ms|].
      { destruct (delay ms w) as [[u|e] w0].
        - apply (Hstop _ [Delayed ms]); [right; eauto|].
          intros request' [= <-]. left. reflexivity.
        - apply (Hstop _ [Delayed ms]); [right; eauto | discriminate]. }
      destruct (whenNonEmpty (redirectTo m)) as [target|] eqn:Ht.
      { apply (Hstop _ []); [left; reflexivity|].
        intros request' [= <-]. right. split; [reflexivity|].
        exists m. destruct (whenNonEmpty_Some _ _ Ht) as [-> _].
        repeat split; reflexivity. }
      destruct (strategiesLoop delay rest info request w) as [[step0 events0] w0] eqn:E.
      apply (Hrec _ _ _ eq_refl).
    + apply (Hstop _ []); [left; reflexivity | discriminate].
Qed.

End StrategiesShape.

(** X15: in one pass over the strategies, the strategies that are asked
    are a prefix of the list, each asked once and in the order of the list;
    at most one delay follows, as the last event; and the pass ends without
    a verdict only when every strategy was asked. *)
Theorem strategies_consulted_in_order {World : Type}
    (delay : JS.number -> World -> Completion unit * World)
    (remaining : list RetryStrategy) (info : RetryInformation)
    (request : PipelineRequest) (w : World) :
  exists asked notAsked behind,
    remaining = asked ++ notAsked
    /\ snd (fst (strategiesLoop delay remaining info request w))
       = map (consulting (retryCount info)) asked ++ behind
    /\ (behind = [] \/ exists ms, behind = [Delayed ms])
    /\ (fst (fst (strategiesLoop delay remaining info request w)) = None ->
        notAsked = [] /\ behind = []).
Proof.
  destruct (strategiesLoop delay remaining info request w) as [[step events] w'] eqn:E.
  destruct (strategiesLoop_shape delay info request _ _ _ _ _ E)
    as (asked & notAsked & behind & Hr & He & Hb & Hn & _).
  exists asked, notAsked, behind. cbn. repeat split; auto; apply Hn; assumption.
Qed.

(** ** The whole loop *)

Section LoopShape.

Context {World : Type}.
Variable next : PipelineRequest -> World -> Completion (option PipelineResponse) * World.
Variable aborted : World -> bool.
Variable delay : JS.number -> World -> Completion unit * World.
Variable strategies : list RetryStrategy.
Variable options : RetryPolicyOptions.

(** One pass of the loop either ends it before any strategy is asked, or
    is a pass over the strategies below the ceiling. *)
Lemma attempt_cases retryCount request w :
  exists sent w0,
    sent = (if (retryCount =? 0)%nat then [] else [Sent request])
    /\ ((exists result,
           attempt next aborted delay strategies options retryCount request w
           = (Done result, Attempted retryCount :: sent, w0))
        \/ (Z.of_nat retryCount < retryCeiling options
            /\ exists response responseError step events w2,
                 strategiesLoop delay strategies
                   {| retryCount := retryCount; response := response;
                      responseError := responseError |} request w0
                 = (step, events, w2)
                 /\ attempt next aborted delay strategies options retryCount request w
                    = (default (afterStrategies request response responseError) step,
                       (Attempted retryCount :: sent) ++ events, w2))).
Proof.
  destruct (trySend next retryCount request w) as [[result sent] w0] eqn:Ht.
  exists sent, w0. split.
  { revert Ht. unfold trySend. destruct (retryCount =? 0)%nat.
    - intros [= _ <- _]. reflexivity.
    - destruct (next request w). intros [= _ <- _]. reflexivity. }
  destruct (capture result) as [e|[response responseError]] eqn:Hc.
  - left. destruct result as [r|e']; cbn in Hc; [discriminate|].
    destruct (rethrown e') eqn:Hr; [|discriminate].
    eexists. eapply attempt_rethrown; eauto.
  - destruct (aborted w0) eqn:Ha.
    { left. eexists. eapply attempt_aborted; eauto. }
    destruct (Z_le_gt_dec (retryCeiling options) (Z.of_nat retryCount)) as [Hle|Hgt].
    { left. eexists. eapply attempt_ceiling; eauto. }
    right. split; [lia|].
    destruct (strategiesLoop delay strategies
                {| retryCount := retryCount; response := response;
                   responseError := responseError |} request w0)
      as [[step events] w2] eqn:Es.
    exists response, responseError, step, events, w2. split; [exact Es|].
    erewrite attempt_strategies by (eauto; lia). rewrite Es. reflexivity.
Qed.

Lemma afterStrategies_continue request response responseError request' :
  afterStrategies request response responseError = Continue request' ->
  request' = request.
Proof.
  unfold afterStrategies. destruct (whenTruthy responseError); [discriminate|].
  destruct response; [discriminate|]. intros [= <-]. reflexivity.
Qed.

(** What one pass of the loop leaves in the trace, and with which request
    the loop goes on. *)
Lemma attempt_shape retryCount request w step events w1 :
  attempt next aborted delay strategies options retryCount request w
  = (step, events, w1) ->
  attempts events = 1%nat
  /\ invocations events = (if (retryCount =? 0)%nat then 0 else 1)%nat
  /\ (delays events <= 1)%nat
  /\ (retryCeiling options <= Z.of_nat retryCount -> delays events = 0%nat)
  /\ sentRequests events = (if (retryCount =? 0)%nat then [] else [request])
  /\ (forall request', step = Continue request' ->
        Z.of_nat retryCount < retryCeiling options
        /\ requestId request' = requestId request
        /\ (url request' = url request \/ redirected strategies (url request'))).
Proof.
  intros Ha.
  destruct (attempt_cases retryCount request w)
    as (sent & w0 & Hsent & [[result E] | (Hlt & response & responseError & step0
                                           & events0 & w2 & Es & E)]);
    rewrite E in Ha; injection Ha as <- <- <-.
  - unfold attempts, invocations, delays. rewrite !count_cons, Hsent.
    destruct (retryCount =? 0)%nat; cbn; repeat split; auto; discriminate.
  - destruct (strategiesLoop_shape delay _ request _ _ _ _ _ Es)
      as (asked & notAsked & behind & Hrem & -> & Hb & Hn & Hc).
    unfold attempts, invocations, delays.
    change (sentRequests (Attempted retryCount :: ?l)) with (sentRequests l).
    rewrite !count_cons, !sentRequests_app, !count_app, sentRequests_consulting.
    rewrite !count_consulting by reflexivity. rewrite Hsent.
    assert (sentRequests behind = []
            /\ length (filter (fun e => isAttempted e = true) behind) = 0%nat
            /\ length (filter (fun e => isSent e = true) behind) = 0%nat
            /\ (length (filter (fun e => isDelayed e = true) behind) <= 1)%nat)
      as (Hb1 & Hb2 & Hb3 & Hb4).
    { destruct Hb as [-> | [ms ->]]; vm_compute; repeat split; lia. }
    rewrite Hb1, Hb2, Hb3.
    assert (forall p : Event -> bool,
              p (Sent request) = false ->
              length (filter (fun e => p e = true)
                        (if (retryCount =? 0)%nat then [] else [Sent request])) = 0%nat)
      as Hnot.
    { intros p Hp. destruct (retryCount =? 0)%nat; [reflexivity|].
      rewrite count_cons, Hp. reflexivity. }
    rewrite !(Hnot _ eq_refl). cbn [isAttempted isSent isDelayed].
    split; [lia|].
    split; [destruct (retryCount =? 0)%nat; [|rewrite count_cons]; reflexivity|].
    split; [lia|]. split; [lia|].
    split; [destruct (retryCount =? 0)%nat; reflexivity|].
    intros request' Hs. split; [exact Hlt|].
    destruct step0 as [st|]; cbn in Hs.
    + subst st.
      destruct (Hc request' eq_refl) as [-> | (_ & s & m & Hi & Hm & Hr & Hq)];
        [split; [reflexivity | left; reflexivity]|].
      split; [rewrite Hq; reflexivity|]. right.
      exists s, {| retryCount := retryCount; response := response;
                   responseError := responseError |}, m.
      split; [|split; assumption].
      rewrite Hrem. apply in_or_app. left. exact Hi.
    + apply afterStrategies_continue in Hs as ->.
      split; [reflexivity | left; reflexivity].
Qed.

End LoopShape.

Lemma retryLoop_shape {World : Type}
    (next : PipelineRequest -> World -> Completion (option PipelineResponse) * World)
    (aborted : World -> bool) (delay : JS.number -> World -> Completion unit * World)
    (strategies : list RetryStrategy) (options : RetryPolicyOptions) (fuel : nat) :
  forall retryCount request w result trace w',
  retryLoop next aborted delay strategies options fuel retryCount request w
  = Some (result, trace, w') ->
  (1 <= attempts trace)%nat
  /\ (retryCount + attempts trace
      <= Nat.max (retryCount + 1) (Z.to_nat (retryCeiling options) + 1))%nat
  /\ (invocations trace + (if (retryCount =? 0)%nat then 1 else 0))%nat = attempts trace
  /\ (delays trace + retryCount
      <= Nat.max retryCount (Z.to_nat (retryCeiling options)))%nat
  /\ Forall (fun q => requestId q = requestId request
                      /\ (url q = url request \/ redirected strategies (url q)))
            (sentRequests trace).
Proof.
  induction fuel as [|fuel IH]; intros retryCount request w result trace w';
    [discriminate|].
  cbn [retryLoop].
  destruct (attempt next aborted delay strategies options retryCount request w)
    as [[step events] w1] eqn:Ha.
  destruct (attempt_shape _ _ _ _ _ _ _ _ _ _ _ Ha)
    as (Hat & Hin & Hd1 & Hd0 & Hsr & Hc).
  destruct step as [r|request'].
  - intros [= <- <- <-]. rewrite Hat, Hin, Hsr.
    split; [lia|]. split; [lia|].
    split; [destruct (retryCount =? 0)%nat; reflexivity|].
    split.
    + destruct (Z_le_gt_dec (retryCeiling options) (Z.of_nat retryCount)) as [Hle|Hgt];
        [rewrite (Hd0 Hle)|]; lia.
    + destruct (retryCount =? 0)%nat; repeat constructor.
  - destruct (Hc request' eq_refl) as (Hlt & Hid & Hu).
    destruct (retryLoop next aborted delay strategies options fuel (S retryCount) request' w1)
      as [[[r later] w2]|] eqn:El; [|discriminate].
    intros [= <- <- <-].
    destruct (IH _ _ _ _ _ _ El) as (I1 & I2 & I3 & I4 & I5).
    unfold attempts, invocations, delays in *.
    rewrite sentRequests_app, !count_app. cbn [Nat.eqb] in I3.
    split; [lia|]. split; [lia|].
    split; [destruct (retryCount =? 0)%nat; lia|]. split; [lia|].
    apply Forall_app. split.
    + rewrite Hsr. destruct (retryCount =? 0)%nat; repeat constructor.
    + eapply Forall_impl; [exact I5|]. cbn. intros q [Hq1 Hq2].
      split; [congruence|]. destruct Hq2 as [Hq2|Hq2]; [|right; exact Hq2].
      rewrite Hq2. exact Hu.
Qed.

(** X8: for a [maxRetries] that is an integer (one that the counter
    [retryCount] reaches exactly), or the default 3, [sendRequest] always ends, after at most [maxRetries + 1] attempts;
    [next] is called once in every attempt but the first, so at most
    [maxRetries] times, and [delay] at most [maxRetries] times (for a
    negative [maxRetries], 0 takes its place). A [maxRetries] that is not an
    integer is outside [RetryPolicyOptions] as it is embedded here. *)
Theorem loop_bounds {World : Type}
    (next : PipelineRequest -> World -> Completion (option PipelineResponse) * World)
    (aborted : World -> bool) (delay : JS.number -> World -> Completion unit * World)
    (strategies : list RetryStrategy) (options : RetryPolicyOptions)
    (request : PipelineRequest) (w : World) :
  exists result trace w',
    sendRequest next aborted delay strategies options request w
    = Some (result, trace, w')
    /\ (1 <= attempts trace <= Z.to_nat (retryCeiling options) + 1)%nat
    /\ (invocations trace + 1)%nat = attempts trace
    /\ (invocations trace <= Z.to_nat (retryCeiling options))%nat
    /\ (delays trace <= Z.to_nat (retryCeiling options))%nat.
Proof.
  destruct (retryLoop_terminates next aborted delay strategies options
              (Z.to_nat (retryCeiling options)) 0 request w) as [[[r t] w'] E]; [lia|].
  exists r, t, w'. split; [exact E|].
  destruct (retryLoop_shape _ _ _ _ _ _ _ _ _ _ _ _ E) as (H1 & H2 & H3 & H4 & _).
  cbn [Nat.eqb] in H3. lia.
Qed.

(** When [next] leaves the request as it got it, the loop over the shared
    request is the loop over the request as a value. *)
Lemma shared_attempt_reading {World : Type}
    (next : PipelineRequest -> World
            -> Completion (option PipelineResponse) * PipelineRequest * World)
    (aborted : World -> bool) (delay : JS.number -> World -> Completion unit * World)
    (strategies : list RetryStrategy) (options : RetryPolicyOptions)
    (retryCount : nat) (request : PipelineRequest) (w : World) :
  (forall q w0, snd (fst (next q w0)) = q) ->
  Shared.attempt next aborted delay strategies options retryCount request w
  = attempt (Shared.answerOf next) aborted delay strategies options retryCount request w.
Proof.
  intros Hkeep. unfold Shared.attempt, attempt, Shared.trySend, trySend, Shared.answerOf.
  destruct (retryCount =? 0)%nat; [reflexivity|].
  specialize (Hkeep request w).
  destruct (next request w) as [[result q] w']. cbn in Hkeep. subst q. reflexivity.
Qed.

Lemma shared_retryLoop_reading {World : Type}
    (next : PipelineRequest -> World
            -> Completion (option PipelineResponse) * PipelineRequest * World)
    (aborted : World -> bool) (delay : JS.number -> World -> Completion unit * World)
    (strategies : list RetryStrategy) (options : RetryPolicyOptions) (fuel : nat) :
  (forall q w0, snd (fst (next q w0)) = q) ->
  forall retryCount request w,
  Shared.retryLoop next aborted delay strategies options fuel retryCount request w
  = retryLoop (Shared.answerOf next) aborted delay strategies options fuel
      retryCount request w.
Proof.
  intros Hkeep. induction fuel as [|fuel IH]; intros retryCount request w; [reflexivity|].
  cbn [Shared.retryLoop retryLoop].
  rewrite (shared_attempt_reading next aborted delay strategies options
             retryCount request w Hkeep).
  destruct (attempt (Shared.answerOf next) aborted delay strategies options
              retryCount request w) as [[[result|request'] events] w1]; [reflexivity|].
  rewrite IH. reflexivity.
Qed.

(** X14: the policy writes to the request only when it follows a
    redirect. With the request as one object that [next] gets in every pass
    and may write to: when [next] leaves the request as it got it (and the
    strategies only read what they are given), [sendRequest] ends, and every
    request that it gives to [next] has the [requestId] of the request it
    was called with, and its URL is the URL of that request or a redirect
    that one of the strategies gave. *)
Theorem sent_requests_provenance {World : Type}
    (next : PipelineRequest -> World
            -> Completion (option PipelineResponse) * PipelineRequest * World)
    (aborted : World -> bool) (delay : JS.number -> World -> Completion unit * World)
    (strategies : list RetryStrategy) (options : RetryPolicyOptions)
    (request : PipelineRequest) (w : World) :
  (forall q w0, snd (fst (next q w0)) = q) ->
  exists result trace w',
    Shared.sendRequest next aborted delay strategies options request w
    = Some (result, trace, w')
    /\ Forall (fun q => requestId q = requestId request
                        /\ (url q = url request \/ redirected strategies (url q)))
              (sentRequests trace).
Proof.
  intros Hkeep. unfold Shared.sendRequest.
  rewrite (shared_retryLoop_reading next aborted delay strategies options _ Hkeep).
  destruct (retryLoop_terminates (Shared.answerOf next) aborted delay strategies options
              (Z.to_nat (retryCeiling options)) 0 request w) as [[[r t] w'] E]; [lia|].
  exists r, t, w'. split; [exact E|].
  exact (proj2 (proj2 (proj2 (proj2 (retryLoop_shape _ _ _ _ _ _ _ _ _ _ _ _ E))))).
Qed.

Lemma sent_requests_provenance_witness :
  (forall q w0, snd (fst (Shared.reading Scripted.next q w0)) = q)
  /\ exists result trace w',
       Shared.sendRequest (Shared.reading Scripted.next) Scripted.aborted Scripted.delay
         [{| name := "redirect";
             retry := fun _ => Normal (Redirect "https://other.example/") |}]
         defaultOptions Scripted.demoRequest Scripted.fourAnswers
       = Some (result, trace, w')
       /\ Forall (fun q =>
                    requestId q = requestId Scripted.demoRequest
                    /\ (url q = url Scripted.demoRequest
                        \/ redirected
                             [{| name := "redirect";
                                 retry := fun _ => Normal (Redirect "https://other.example/") |}]
                             (url q)))
                 (sentRequests trace).
Proof.
  assert (forall q w0, snd (fst (Shared.reading Scripted.next q w0)) = q) as Hkeep.
  { intros q w0. unfold Shared.reading. destruct (Scripted.next q w0). reflexivity. }
  split; [exact Hkeep|].
  exact (sent_requests_provenance (Shared.reading Scripted.next) Scripted.aborted
           Scripted.delay _ defaultOptions Scripted.demoRequest Scripted.fourAnswers Hkeep).
Defined.

(** A [next] that assigns [request.url] is seen in what is sent afterwards:
    the later passes give [next] a URL that is neither the caller's nor a
    redirect of a strategy. *)
Lemma rewriting_next_is_sent_on :
  sentRequests
    (traceOf (Shared.sendRequest
                (Shared.rewriting "https://elsewhere.example/" Scripted.next)
                Scripted.aborted Scripted.delay [Scripted.alwaysWait10] defaultOptions
                Scripted.demoRequest Scripted.fourAnswers))
  = [Scripted.demoRequest;
     {| url := "https://elsewhere.example/"; requestId := "1" |};
     {| url := "https://elsewhere.example/"; requestId := "1" |}]
  /\ "https://elsewhere.example/" <> url Scripted.demoRequest
  /\ ~ redirected [Scripted.alwaysWait10] "https://elsewhere.example/".
Proof.
  split; [vm_compute; reflexivity|]. split; [discriminate|].
  intros (s & info & m & Hin & Hm & Hr).
  destruct Hin as [<- | []]. cbn in Hm. injection Hm as <-. discriminate.
Qed.

(** ** The verdicts in the loop *)

Lemma first_attempt_strategies {World : Type}
    (next : PipelineRequest -> World -> Completion (option PipelineResponse) * World)
    (aborted : World -> bool) (delay : JS.number -> World -> Completion unit * World)
    (strategies : list RetryStrategy) (options : RetryPolicyOptions)
    (request : PipelineRequest) (w : World) :
  aborted w = false ->
  0 < retryCeiling options ->
  attempt next aborted delay strategies options 0 request w
  = let '(step, events, w2) :=
      strategiesLoop delay strategies (mockInfo request) request w in
    (default (afterStrategies request (Some (mockResponse request)) None) step,
     Attempted 0 :: events, w2).
Proof.
  intros Ha Hc.
  rewrite (attempt_strategies next aborted delay strategies options 0 request w
             _ _ _ (Some (mockResponse request)) None (trySend_first next request w)
             eq_refl Ha Hc).
  reflexivity.
Qed.

Lemma whenWait_not_NaN ms : JS.isNaN ms = false -> whenWait (Some ms) = Some ms.
Proof.
  destruct ms as [| | |q]; try discriminate; try reflexivity.
  intros _. cbn. destruct (JS.isZero q); reflexivity.
Qed.

(** X9: with [maxRetries <= 0] the request is never sent: the first pass
    is at the ceiling already, so [sendRequest] returns the simulated 429
    response, or throws the [AbortError] when the abort signal is
    triggered, without asking a strategy. *)
Theorem no_retries_returns_simulated_response {World : Type}
    (next : PipelineRequest -> World -> Completion (option PipelineResponse) * World)
    (aborted : World -> bool) (delay : JS.number -> World -> Completion unit * World)
    (strategies : list RetryStrategy) (options : RetryPolicyOptions)
    (request : PipelineRequest) (w : World) :
  retryCeiling options <= 0 ->
  sendRequest next aborted delay strategies options request w
  = Some (if aborted w then Abrupt (AbortError "") else Normal (mockResponse request),
          [Attempted 0], w).
Proof.
  intros Hc. unfold sendRequest. apply retryLoop_done.
  destruct (aborted w) eqn:Ha.
  - eapply attempt_aborted; [apply trySend_first | reflexivity | exact Ha].
  - rewrite (attempt_ceiling next aborted delay strategies options 0 request w
               _ _ _ (Some (mockResponse request)) None (trySend_first next request w)
               eq_refl Ha Hc).
    reflexivity.
Qed.

Lemma no_retries_returns_simulated_response_witness :
  Scripted.sendRequest [Scripted.alwaysWait10] {| maxRetries := Some 0 |}
    Scripted.demoRequest Scripted.fourAnswers
  = Some (Normal (mockResponse Scripted.demoRequest), [Attempted 0], Scripted.fourAnswers).
Proof.
  refine (no_retries_returns_simulated_response Scripted.next Scripted.aborted
            Scripted.delay [Scripted.alwaysWait10] {| maxRetries := Some 0 |}
            Scripted.demoRequest Scripted.fourAnswers _).
  vm_compute. discriminate.
Defined.

(** X10: an error to throw ends the loop at once. When the first strategy
    that does not skip gives an [errorToThrow], that error is thrown, the
    strategies behind it are not asked and nothing is delayed, whatever wait
    or redirect comes with it; after the first attempt this happens without
    any call of [next]. *)
Theorem throw_verdict_ends_the_loop {World : Type}
    (next : PipelineRequest -> World -> Completion (option PipelineResponse) * World)
    (aborted : World -> bool) (delay : JS.number -> World -> Completion unit * World)
    (skipping rest : list RetryStrategy) (s : RetryStrategy)
    (options : RetryPolicyOptions) (info : RetryInformation)
    (request : PipelineRequest) (w : World) (m : RetryModifiers) (e : Thrown) :
  Forall (skips info) skipping ->
  retry s info = Normal m ->
  isTrue (skipStrategy m) = false ->
  errorToThrow m = Some e ->
  isTruthy e = true ->
  strategiesLoop delay (skipping ++ s :: rest) info request w
  = (Some (Done (Abrupt e)),
     map (consulting (retryCount info)) skipping ++ [consulting (retryCount info) s], w)
  /\ (info = mockInfo request -> aborted w = false -> 0 < retryCeiling options ->
      sendRequest next aborted delay (skipping ++ s :: rest) options request w
      = Some (Abrupt e,
              Attempted 0 :: map (consulting 0) skipping ++ [consulting 0 s], w)).
Proof.
  intros Hk Hm Hs He Ht.
  assert (strategiesLoop delay (skipping ++ s :: rest) info request w
          = (Some (Done (Abrupt e)),
             map (consulting (retryCount info)) skipping
             ++ [consulting (retryCount info) s], w)) as E.
  { rewrite (strategiesLoop_skipped delay info request w skipping _ Hk).
    cbn [strategiesLoop]. rewrite Hm, Hs, He. cbn [whenTruthy]. rewrite Ht. reflexivity. }
  split; [exact E|]. intros -> Ha Hc. unfold sendRequest. apply retryLoop_done.
  rewrite first_attempt_strategies by assumption. rewrite E. reflexivity.
Qed.

Lemma throw_verdict_ends_the_loop_witness :
  Scripted.sendRequest
    [{| name := "skip"; retry := fun _ => Normal Skip |};
     {| name := "throw"; retry := fun _ => Normal (Throw (Error "stop")) |};
     Scripted.alwaysWait10]
    defaultOptions Scripted.demoRequest Scripted.fourAnswers
  = Some (Abrupt (Error "stop"),
          [Attempted 0; Consulted "skip" 0; Consulted "throw" 0], Scripted.fourAnswers).
Proof.
  refine (proj2 (throw_verdict_ends_the_loop Scripted.next Scripted.aborted Scripted.delay
                   [{| name := "skip"; retry := fun _ => Normal Skip |}]
                   [Scripted.alwaysWait10]
                   {| name := "throw"; retry := fun _ => Normal (Throw (Error "stop")) |}
                   defaultOptions (mockInfo Scripted.demoRequest) Scripted.demoRequest
                   Scripted.fourAnswers (Throw (Error "stop")) (Error "stop")
                   _ eq_refl eq_refl eq_refl eq_refl) eq_refl eq_refl eq_refl).
  constructor; [|constructor]. exists Skip. split; reflexivity.
Defined.

(** X12: when every strategy skips, the attempt ends with what it has. In
    particular, when every strategy skips on the simulated first response,
    or when there is no strategy at all, [sendRequest] returns that 429
    response and the request is never given to [next]. *)
Theorem all_skip_returns_simulated_response {World : Type}
    (next : PipelineRequest -> World -> Completion (option PipelineResponse) * World)
    (aborted : World -> bool) (delay : JS.number -> World -> Completion unit * World)
    (strategies : list RetryStrategy) (options : RetryPolicyOptions)
    (request : PipelineRequest) (w : World) :
  Forall (skips (mockInfo request)) strategies ->
  aborted w = false ->
  0 < retryCeiling options ->
  sendRequest next aborted delay strategies options request w
  = Some (Normal (mockResponse request),
          Attempted 0 :: map (consulting 0) strategies, w).
Proof.
  intros Hk Ha Hc. unfold sendRequest. apply retryLoop_done.
  rewrite first_attempt_strategies by assumption.
  rewrite <- (app_nil_r strategies) at 1.
  rewrite (strategiesLoop_skipped delay _ request w strategies [] Hk).
  cbn. rewrite app_nil_r. reflexivity.
Qed.

Lemma all_skip_returns_simulated_response_witness :
  Scripted.sendRequest [] defaultOptions Scripted.demoRequest Scripted.fourAnswers
  = Some (Normal (mockResponse Scripted.demoRequest), [Attempted 0], Scripted.fourAnswers).
Proof.
  exact (all_skip_returns_simulated_response Scripted.next Scripted.aborted Scripted.delay
           [] defaultOptions Scripted.demoRequest Scripted.fourAnswers
           (List.Forall_nil _) eq_refl eq_refl).
Defined.

Lemma strategiesLoop_redirect {World : Type}
    (delay : JS.number -> World -> Completion unit * World)
    (skipping rest : list RetryStrategy) (s : RetryStrategy)
    (info : RetryInformation) (request : PipelineRequest) (w : World)
    (m : RetryModifiers) (target : string) :
  Forall (skips info) skipping ->
  retry s info = Normal m ->
  isTrue (skipStrategy m) = false ->
  whenTruthy (errorToThrow m) = None ->
  whenWait (retryAfterInMs m) = None ->
  redirectTo m = Some target ->
  JS.nonEmpty target = true ->
  strategiesLoop delay (skipping ++ s :: rest) info request w
  = (Some (Continue {| url := target; requestId := requestId request |}),
     map (consulting (retryCount info)) skipping ++ [consulting (retryCount info) s], w).
Proof.
  intros Hk Hm Hs He Hw Hr Hn.
  rewrite (strategiesLoop_skipped delay info request w skipping _ Hk).
  cbn [strategiesLoop]. rewrite Hm, Hs, He, Hw, Hr. cbn [whenNonEmpty]. rewrite Hn.
  reflexivity.
Qed.

(** Every pass but the first starts by giving its request to [next]. *)
Lemma retryLoop_starts_with_send {World : Type}
    (next : PipelineRequest -> World -> Completion (option PipelineResponse) * World)
    (aborted : World -> bool) (delay : JS.number -> World -> Completion unit * World)
    (strategies : list RetryStrategy) (options : RetryPolicyOptions)
    (fuel retryCount : nat) (request : PipelineRequest) (w : World) result trace w' :
  retryCount <> 0%nat ->
  retryLoop next aborted delay strategies options fuel retryCount request w
  = Some (result, trace, w') ->
  exists later, trace = Attempted retryCount :: Sent request :: later.
Proof.
  intros H0. destruct fuel as [|fuel]; [discriminate|]. cbn [retryLoop].
  destruct (attempt_cases next aborted delay strategies options retryCount request w)
    as (sent & w0 & Hsent & Hcases).
  apply Nat.eqb_neq in H0. rewrite H0 in Hsent. subst sent.
  destruct Hcases as [[r E] | (_ & response & responseError & step & events & w2 & _ & E)];
    rewrite E.
  - intros [= <- <- <-]. eauto.
  - destruct (default (afterStrategies request response responseError) step)
      as [r|request'].
    + intros [= <- <- <-]. cbn. eauto.
    + destruct (retryLoop next aborted delay strategies options fuel (S retryCount)
                  request' w2) as [[[r later] w3]|]; [|discriminate].
      intros [= <- <- <-]. cbn. eauto.
Qed.

(** X11: a redirect changes the URL of the request and nothing else, and
    the request is sent again at once. When the first strategy that does
    not skip gives a redirect that is not empty, and neither an error nor a
    wait, the loop goes on, without a delay, with the request whose [url] is
    the redirect and whose [requestId] is unchanged; after the first attempt
    the next thing that happens is the call of [next] with that request. *)
Theorem redirect_verdict_resends {World : Type}
    (next : PipelineRequest -> World -> Completion (option PipelineResponse) * World)
    (aborted : World -> bool) (delay : JS.number -> World -> Completion unit * World)
    (skipping rest : list RetryStrategy) (s : RetryStrategy)
    (options : RetryPolicyOptions) (info : RetryInformation)
    (request : PipelineRequest) (w : World) (m : RetryModifiers) (target : string) :
  Forall (skips info) skipping ->
  retry s info = Normal m ->
  isTrue (skipStrategy m) = false ->
  whenTruthy (errorToThrow m) = None ->
  whenWait (retryAfterInMs m) = None ->
  redirectTo m = Some target ->
  JS.nonEmpty target = true ->
  strategiesLoop delay (skipping ++ s :: rest) info request w
  = (Some (Continue {| url := target; requestId := requestId request |}),
     map (consulting (retryCount info)) skipping ++ [consulting (retryCount info) s], w)
  /\ (info = mockInfo request -> aborted w = false -> 0 < retryCeiling options ->
      exists result later w',
        sendRequest next aborted delay (skipping ++ s :: rest) options request w
        = Some (result,
                Attempted 0 :: map (consulting 0) skipping
                ++ [consulting 0 s; Attempted 1;
                    Sent {| url := target; requestId := requestId request |}]
                ++ later,
                w')).
Proof.
  intros Hk Hm Hs He Hw Hr Hn.
  pose proof (strategiesLoop_redirect delay skipping rest s info request w m target
                Hk Hm Hs He Hw Hr Hn) as E.
  split; [exact E|]. intros -> Ha Hc. unfold sendRequest.
  assert (attempt next aborted delay (skipping ++ s :: rest) options 0 request w
          = (Continue {| url := target; requestId := requestId request |},
             Attempted 0 :: map (consulting 0) skipping ++ [consulting 0 s], w)) as E0.
  { rewrite first_attempt_strategies by assumption. rewrite E. reflexivity. }
  rewrite (retryLoop_continue _ _ _ _ _ _ _ _ _ _ _ _ E0).
  destruct (Z.to_nat (retryCeiling options)) as [|k] eqn:Ek; [lia|].
  destruct (retryLoop_terminates next aborted delay (skipping ++ s :: rest) options k 1
              {| url := target; requestId := requestId request |} w)
    as [[[r t] w'] El]; [lia|].
  rewrite El.
  destruct (retryLoop_starts_with_send _ _ _ _ _ _ _ _ _ _ _ _ (Nat.neq_succ_0 0) El)
    as [later ->].
  exists r, later, w'. cbn. rewrite <- app_assoc. reflexivity.
Qed.

Lemma redirect_verdict_resends_witness :
  exists result later w',
    Scripted.sendRequest
      [{| name := "redirect";
          retry := fun _ => Normal (Redirect "https://other.example/v1") |}]
      defaultOptions Scripted.demoRequest Scripted.fourAnswers
    = Some (result,
            Attempted 0 :: Consulted "redirect" 0 :: Attempted 1
            :: Sent {| url := "https://other.example/v1"; requestId := "1" |} :: later,
            w').
Proof.
  exact (proj2 (redirect_verdict_resends Scripted.next Scripted.aborted Scripted.delay
                  [] []
                  {| name := "redirect";
                     retry := fun _ => Normal (Redirect "https://other.example/v1") |}
                  defaultOptions (mockInfo Scripted.demoRequest) Scripted.demoRequest
                  Scripted.fourAnswers (Redirect "https://other.example/v1")
                  "https://other.example/v1"
                  (List.Forall_nil _) eq_refl eq_refl eq_refl eq_refl eq_refl eq_refl)
           eq_refl eq_refl eq_refl).
Defined.

(** X18: a verdict that names nothing usable is passed over like a skip:
    without the skip flag, with an [errorToThrow] that is [undefined] or
    falsy, a wait that is [undefined] or [NaN] and a redirect that is
    [undefined] or the empty string, the pass goes on with the strategies
    behind it. *)
Theorem empty_verdict_is_passed_over {World : Type}
    (delay : JS.number -> World -> Completion unit * World)
    (s : RetryStrategy) (rest : list RetryStrategy)
    (info : RetryInformation) (request : PipelineRequest) (w : World)
    (m : RetryModifiers) :
  retry s info = Normal m ->
  isTrue (skipStrategy m) = false ->
  (errorToThrow m = None \/ errorToThrow m = Some Falsy) ->
  (retryAfterInMs m = None \/ retryAfterInMs m = Some JS.NaN) ->
  (redirectTo m = None \/ redirectTo m = Some "") ->
  strategiesLoop delay (s :: rest) info request w
  = (fst (fst (strategiesLoop delay rest info request w)),
     consulting (retryCount info) s :: snd (fst (strategiesLoop delay rest info request w)),
     snd (strategiesLoop delay rest info request w)).
Proof.
  intros Hm Hs He Hw Hr. cbn [strategiesLoop]. rewrite Hm, Hs.
  assert (whenTruthy (errorToThrow m) = None) as -> by (destruct He as [-> | ->]; reflexivity).
  assert (whenWait (retryAfterInMs m) = None) as -> by (destruct Hw as [-> | ->]; reflexivity).
  assert (whenNonEmpty (redirectTo m) = None) as -> by (destruct Hr as [-> | ->]; reflexivity).
  destruct (strategiesLoop delay rest info request w) as [[step events] w']. reflexivity.
Qed.

Lemma empty_verdict_is_passed_over_witness :
  strategiesLoop Scripted.delay
    [{| name := "empty";
        retry := fun _ => Normal {| skipStrategy := Some false; redirectTo := Some "";
                                    retryAfterInMs := Some JS.NaN;
                                    errorToThrow := Some Falsy |} |};
     Scripted.alwaysWait10]
    (mockInfo Scripted.demoRequest) Scripted.demoRequest Scripted.fourAnswers
  = (Some (Continue Scripted.demoRequest),
     [Consulted "empty" 0; Consulted "wait10" 0; Delayed (JS.ofZ 10)],
     Scripted.fourAnswers).
Proof.
  exact (empty_verdict_is_passed_over Scripted.delay
           {| name := "empty";
              retry := fun _ => Normal {| skipStrategy := Some false; redirectTo := Some "";
                                          retryAfterInMs := Some JS.NaN;
                                          errorToThrow := Some Falsy |} |}
           [Scripted.alwaysWait10]
           (mockInfo Scripted.demoRequest) Scripted.demoRequest Scripted.fourAnswers
           _ eq_refl eq_refl (or_intror eq_refl) (or_intror eq_refl) (or_intror eq_refl)).
Defined.

(** ** The policy that [getCompletion] installs *)

Lemma nonEmpty_app_r (a b : string) :
  JS.nonEmpty b = true -> JS.nonEmpty (a ++ b)%string = true.
Proof. destruct a; [trivial | reflexivity]. Qed.

Lemma nonEmpty_app_l (a b : string) :
  JS.nonEmpty a = true -> JS.nonEmpty (a ++ b)%string = true.
Proof. destruct a; [discriminate | reflexivity]. Qed.

Lemma pathname_nonEmpty s u : URL.parse s = Some u -> JS.nonEmpty (URL.pathname u) = true.
Proof.
  intros H. destruct (parse_spec _ _ H)
    as (_ & _ & path & _ & _ & _ & _ & _ & _ & -> & [[rest ->] _] & _).
  reflexivity.
Qed.

(** The simulated first response is a throttling response for every clock. *)
Lemma mockResponse_throttling Date_parse Date_now request :
  isThrottlingRetryResponse Date_parse Date_now (Some (mockResponse request)) = true.
Proof. reflexivity. Qed.

(** X16: the policy of [getCompletion] fails over to the endpoint of the
    form. The first attempt is not sent; its simulated 429 response makes
    the rotation strategy redirect to the second endpoint, with the path and
    the query of the request. The request is then sent there once and, when
    the answer has no throttling status and the request is not aborted, that
    answer is returned. *)
Theorem completion_policy_fails_over {World : Type}
    (Date_parse : string -> JS.number) (Date_now : JS.number)
    (next : PipelineRequest -> World -> Completion (option PipelineResponse) * World)
    (aborted : World -> bool) (delay : JS.number -> World -> Completion unit * World)
    (endpoint : string) (request : PipelineRequest) (w : World)
    (u : URL.t) (r : PipelineResponse) :
  URL.parse (url request) = Some u ->
  aborted w = false ->
  fst (next {| url := (endpoint ++ URL.pathname u ++ URL.search u)%string;
               requestId := requestId request |} w) = Normal (Some r) ->
  aborted (snd (next {| url := (endpoint ++ URL.pathname u ++ URL.search u)%string;
                        requestId := requestId request |} w)) = false ->
  isThrottlingStatus (status r) = false ->
  sendRequest next aborted delay
    (completionStrategies Date_parse Date_now endpoint) completionOptions request w
  = Some (Normal r,
          [Attempted 0; Consulted "throttlingRetryStrategy" 0;
           Attempted 1;
           Sent {| url := (endpoint ++ URL.pathname u ++ URL.search u)%string;
                   requestId := requestId request |};
           Consulted "throttlingRetryStrategy" 1],
          snd (next {| url := (endpoint ++ URL.pathname u ++ URL.search u)%string;
                       requestId := requestId request |} w)).
Proof.
  intros Hu Ha Hn Ha1 Hs.
  set (request' := {| url := (endpoint ++ URL.pathname u ++ URL.search u)%string;
                      requestId := requestId request |}) in *.
  set (strategy := roundRobinThrottlingStrategy Date_parse Date_now
                     (completionHosts endpoint)).
  assert (attempt next aborted delay [strategy] completionOptions 0 request w
          = (Continue request',
             [Attempted 0; Consulted "throttlingRetryStrategy" 0], w)) as E0.
  { rewrite first_attempt_strategies by (assumption || reflexivity).
    change [strategy] with ([] ++ [strategy]).
    rewrite (strategiesLoop_redirect delay [] [] strategy (mockInfo request) request w
               (Redirect (endpoint ++ URL.pathname u ++ URL.search u)%string)
               (endpoint ++ URL.pathname u ++ URL.search u)%string);
      try reflexivity.
    - constructor.
    - subst strategy.
      rewrite (strategy_redirect Date_parse Date_now (completionHosts endpoint)
                 (mockInfo request) (mockResponse request) u eq_refl
                 (mockResponse_throttling _ _ _) Hu).
      reflexivity.
    - apply nonEmpty_app_r, nonEmpty_app_l, (pathname_nonEmpty _ _ Hu). }
  assert (attempt next aborted delay [strategy] completionOptions 1 request' w
          = (Done (Normal r),
             [Attempted 1; Sent request'; Consulted "throttlingRetryStrategy" 1],
             snd (next request' w))) as E1.
  { rewrite (attempt_strategies next aborted delay [strategy] completionOptions 1
               request' w _ _ _ (Some r) None
               (trySend_later next 1 request' w (Nat.neq_succ_0 0)));
      [| rewrite Hn; reflexivity | exact Ha1 | reflexivity ].
    change [strategy] with ([strategy] ++ []).
    rewrite (strategiesLoop_skipped delay _ request' (snd (next request' w))
               [strategy] []).
    - reflexivity.
    - constructor; [|constructor]. exists Skip. split; [|reflexivity].
      subst strategy. cbn. unfold isThrottlingRetryResponse, getRetryAfterInMs.
      rewrite Hs. reflexivity. }
  unfold sendRequest, completionStrategies. fold strategy.
  change (S (Z.to_nat (retryCeiling completionOptions))) with 4%nat.
  rewrite (retryLoop_continue _ _ _ _ _ _ _ _ _ _ _ _ E0).
  rewrite (retryLoop_done _ _ _ _ _ _ _ _ _ _ _ _ E1). reflexivity.
Qed.

Lemma completion_policy_fails_over_witness :
  Scripted.sendRequest
    (completionStrategies Scripted.noDate Scripted.epoch "https://backup.openai.azure.com")
    completionOptions Scripted.demoRequest Scripted.oneAnswer
  = Some (Normal (Scripted.ok "a"),
          [Attempted 0; Consulted "throttlingRetryStrategy" 0;
           Attempted 1;
           Sent {| url := "https://backup.openai.azure.com/openai/deployments/gpt/chat/completions?api-version=2023-05-15";
                   requestId := "1" |};
           Consulted "throttlingRetryStrategy" 1],
          {| Scripted.pending := []; Scripted.calls := 1; Scripted.abortAt := None |}).
Proof.
  exact (completion_policy_fails_over Scripted.noDate Scripted.epoch
           Scripted.next Scripted.aborted Scripted.delay
           "https://backup.openai.azure.com" Scripted.demoRequest Scripted.oneAnswer
           {| URL.origin := "https://example.com";
              URL.pathname := "/openai/deployments/gpt/chat/completions";
              URL.search := "?api-version=2023-05-15"; URL.hash := "" |}
           (Scripted.ok "a") eq_refl eq_refl eq_refl eq_refl eq_refl).
Defined.

(** ** The coordinator of the cookbook *)

Lemma perform_at_zero endpoints call :
  Coordinator.perform (Coordinator.create endpoints) call
  = (Coordinator.Forward (Coordinator.requestOf call), Coordinator.create endpoints).
Proof. destruct call; reflexivity. Qed.

(** X17: a coordinator never leaves the state it is created in. From
    [currentRetries] 0, whichever of its two policies is used, in whatever
    order and however often, each request is passed on as it is (no 429
    response is made up and no URL is rewritten) and [currentRetries] is
    still 0. *)
Theorem coordinator_is_inert (endpoints : list string) (calls : list Coordinator.Call) :
  Coordinator.run (Coordinator.create endpoints) calls
  = (map (fun call => Coordinator.Forward (Coordinator.requestOf call)) calls,
     Coordinator.create endpoints).
Proof.
  induction calls as [|call calls IH]; [reflexivity|].
  cbn [Coordinator.run map]. rewrite perform_at_zero, IH. reflexivity.
Qed.

(** X19: with a positive [currentRetries], [mockRetry] never passes a
    request on: it answers every request with a 429 response that carries
    the request, and counts [currentRetries] up by one each time. *)
Theorem coordinator_mocks_when_positive (c : Coordinator.t)
    (requests : list PipelineRequest) :
  (0 < Coordinator.currentRetries c)%nat ->
  Coordinator.run c (map Coordinator.ViaMockRetry requests)
  = (map (fun request => Coordinator.Answer (Coordinator.tooManyRequests request)) requests,
     {| Coordinator.currentRetries := Coordinator.currentRetries c + length requests;
        Coordinator.openAIEndpoints := Coordinator.openAIEndpoints c |}).
Proof.
  revert c. induction requests as [|request requests IH]; intros c Hc.
  - cbn. rewrite Nat.add_0_r. destruct c; reflexivity.
  - cbn [map Coordinator.run Coordinator.perform]. unfold Coordinator.mockRetry.
    destruct (Coordinator.currentRetries c <=? 0)%nat eqn:E;
      [apply Nat.leb_le in E; lia|].
    rewrite IH by (cbn; lia). cbn. repeat f_equal. lia.
Qed.

Lemma coordinator_mocks_when_positive_witness :
  Coordinator.run
    {| Coordinator.currentRetries := 1;
       Coordinator.openAIEndpoints := Scripted.demoHosts |}
    [Coordinator.ViaMockRetry Scripted.demoRequest;
     Coordinator.ViaMockRetry Scripted.demoRequest]
  = ([Coordinator.Answer (Coordinator.tooManyRequests Scripted.demoRequest);
      Coordinator.Answer (Coordinator.tooManyRequests Scripted.demoRequest)],
     {| Coordinator.currentRetries := 3;
        Coordinator.openAIEndpoints := Scripted.demoHosts |}).
Proof.
  exact (coordinator_mocks_when_positive
           {| Coordinator.currentRetries := 1;
              Coordinator.openAIEndpoints := Scripted.demoHosts |}
           [Scripted.demoRequest; Scripted.demoRequest] (le_n 1)).
Defined.

(** ** A wait in the loop *)

Lemma strategiesLoop_wait_behind_skips {World : Type}
    (delay : JS.number -> World -> Completion unit * World)
    (skipping rest : list RetryStrategy) (s : RetryStrategy)
    (info : RetryInformation) (request : PipelineRequest) (w : World)
    (m : RetryModifiers) (ms : JS.number) :
  Forall (skips info) skipping ->
  retry s info = Normal m ->
  isTrue (skipStrategy m) = false ->
  whenTruthy (errorToThrow m) = None ->
  retryAfterInMs m = Some ms ->
  JS.isNaN ms = false ->
  strategiesLoop delay (skipping ++ s :: rest) info request w
  = (Some match fst (delay ms w) with
          | Normal _ => Continue request
          | Abrupt e => Done (Abrupt e)
          end,
     map (consulting (retryCount info)) skipping
     ++ [consulting (retryCount info) s; Delayed ms],
     snd (delay ms w)).
Proof.
  intros Hk Hm Hs He Hw Hn.
  rewrite (strategiesLoop_skipped delay info request w skipping _ Hk).
  cbn [strategiesLoop]. rewrite Hm, Hs, He, Hw, (whenWait_not_NaN ms Hn).
  destruct (delay ms w) as [[u|e] w']; reflexivity.
Qed.

(** One pass of the loop in which the first strategy that does not skip
    gives a wait. *)
Lemma attempt_wait_behind_skips {World : Type}
    (next : PipelineRequest -> World -> Completion (option PipelineResponse) * World)
    (aborted : World -> bool) (delay : JS.number -> World -> Completion unit * World)
    (skipping rest : list RetryStrategy) (s : RetryStrategy)
    (options : RetryPolicyOptions) (count : nat) (request : PipelineRequest)
    (w0 w : World) result sent answer failure (m : RetryModifiers) (ms : JS.number) :
  trySend next count request w0 = (result, sent, w) ->
  capture result = inr (answer, failure) ->
  aborted w = false ->
  Z.of_nat count < retryCeiling options ->
  Forall (skips {| retryCount := count; response := answer; responseError := failure |})
         skipping ->
  retry s {| retryCount := count; response := answer; responseError := failure |}
  = Normal m ->
  isTrue (skipStrategy m) = false ->
  whenTruthy (errorToThrow m) = None ->
  retryAfterInMs m = Some ms ->
  JS.isNaN ms = false ->
  attempt next aborted delay (skipping ++ s :: rest) options count request w0
  = (match fst (delay ms w) with
     | Normal _ => Continue request
     | Abrupt e => Done (Abrupt e)
     end,
     (Attempted count :: sent)
     ++ map (consulting count) skipping ++ [consulting count s; Delayed ms],
     snd (delay ms w)).
Proof.
  intros Ht Hc Ha Hlt Hk Hm Hs He Hw Hn.
  erewrite attempt_strategies by eassumption.
  rewrite (strategiesLoop_wait_behind_skips delay skipping rest s _ request w m ms
             Hk Hm Hs He Hw Hn).
  reflexivity.
Qed.

(** When the first pass ends with [continue retryRequest], the request it
    goes on with is given to [next] at the start of the second pass. *)
Lemma first_attempt_continue {World : Type}
    (next : PipelineRequest -> World -> Completion (option PipelineResponse) * World)
    (aborted : World -> bool) (delay : JS.number -> World -> Completion unit * World)
    (strategies : list RetryStrategy) (options : RetryPolicyOptions)
    (request request' : PipelineRequest) (w w1 : World) (events : list Event) :
  aborted w = false ->
  0 < retryCeiling options ->
  strategiesLoop delay strategies (mockInfo request) request w
  = (Some (Continue request'), events, w1) ->
  exists result later w',
    sendRequest next aborted delay strategies options request w
    = Some (result,
            Attempted 0 :: events ++ Attempted 1 :: Sent request' :: later, w').
Proof.
  intros Ha Hc E. unfold sendRequest.
  assert (attempt next aborted delay strategies options 0 request w
          = (Continue request', Attempted 0 :: events, w1)) as E0.
  { rewrite first_attempt_strategies by assumption. rewrite E. reflexivity. }
  rewrite (retryLoop_continue _ _ _ _ _ _ _ _ _ _ _ _ E0).
  destruct (Z.to_nat (retryCeiling options)) as [|k] eqn:Ek; [lia|].
  destruct (retryLoop_terminates next aborted delay strategies options k 1 request' w1)
    as [[[r t] w'] El]; [lia|].
  rewrite El.
  destruct (retryLoop_starts_with_send _ _ _ _ _ _ _ _ _ _ _ _ (Nat.neq_succ_0 0) El)
    as [later ->].
  exists r, later, w'. reflexivity.
Qed.

(** C4: a 429 response with [retry-after-ms: 0] has the wait 0, a number
    and not [undefined], and is a throttling response. In the policy, the
    wait 0 of the first strategy that does not skip is honoured: [delay] is
    called with 0 and, when it completes, the loop goes to the next attempt
    with the request as it is; the strategies behind it are not asked. This
    holds for the pass over the strategies, for the pass of the retry loop
    that contains it (the loop then runs its next pass with the same
    request), and for [sendRequest] as a whole, where after the first attempt
    the delay of 0 is followed by the second attempt and its call of [next]
    with the request. *)
Theorem C4_zero_wait {World : Type} (Date_parse : string -> JS.number)
    (Date_now : JS.number) (delay : JS.number -> World -> Completion unit * World)
    (r : PipelineResponse) (skipping rest : list RetryStrategy) (s : RetryStrategy)
    (info : RetryInformation) (request : PipelineRequest) (w : World) :
  (status r = 429 ->
   headers_get (headers r) "retry-after-ms" = Some "0" ->
   getRetryAfterInMs Date_parse Date_now (Some r) = Some (JS.ofZ 0)
   /\ isThrottlingRetryResponse Date_parse Date_now (Some r) = true)
  /\ (Forall (skips info) skipping ->
      retry s info = Normal (Wait (JS.ofZ 0)) ->
      strategiesLoop delay (skipping ++ s :: rest) info request w
      = (Some match fst (delay (JS.ofZ 0) w) with
              | Normal _ => Continue request
              | Abrupt e => Done (Abrupt e)
              end,
         map (fun s' => Consulted (name s') (retryCount info)) skipping
         ++ [Consulted (name s) (retryCount info); Delayed (JS.ofZ 0)],
         snd (delay (JS.ofZ 0) w)))
  /\ (forall (next : PipelineRequest -> World
                     -> Completion (option PipelineResponse) * World)
             (aborted : World -> bool) (options : RetryPolicyOptions)
             (fuel count : nat) (w0 : World) result sent answer failure,
        trySend next count request w0 = (result, sent, w) ->
        capture result = inr (answer, failure) ->
        info = {| retryCount := count; response := answer; responseError := failure |} ->
        aborted w = false ->
        Z.of_nat count < retryCeiling options ->
        Forall (skips info) skipping ->
        retry s info = Normal (Wait (JS.ofZ 0)) ->
        attempt next aborted delay (skipping ++ s :: rest) options count request w0
        = (match fst (delay (JS.ofZ 0) w) with
           | Normal _ => Continue request
           | Abrupt e => Done (Abrupt e)
           end,
           (Attempted count :: sent)
           ++ map (fun s' => Consulted (name s') count) skipping
           ++ [Consulted (name s) count; Delayed (JS.ofZ 0)],
           snd (delay (JS.ofZ 0) w))
        /\ (forall u, fst (delay (JS.ofZ 0) w) = Normal u ->
              retryLoop next aborted delay (skipping ++ s :: rest) options
                (S fuel) count request w0
              = match retryLoop next aborted delay (skipping ++ s :: rest) options
                        fuel (S count) request (snd (delay (JS.ofZ 0) w)) with
                | Some (outcome, later, w2) =>
                    Some (outcome,
                          ((Attempted count :: sent)
                           ++ map (fun s' => Consulted (name s') count) skipping
                           ++ [Consulted (name s) count; Delayed (JS.ofZ 0)])
                          ++ later,
                          w2)
                | None => None
                end))
  /\ (forall (next : PipelineRequest -> World
                     -> Completion (option PipelineResponse) * World)
             (aborted : World -> bool) (options : RetryPolicyOptions) u,
        info = mockInfo request ->
        aborted w = false ->
        0 < retryCeiling options ->
        Forall (skips info) skipping ->
        retry s info = Normal (Wait (JS.ofZ 0)) ->
        fst (delay (JS.ofZ 0) w) = Normal u ->
        exists outcome later w',
          sendRequest next aborted delay (skipping ++ s :: rest) options request w
          = Some (outcome,
                  Attempted 0
                  :: (map (fun s' => Consulted (name s') 0) skipping
                      ++ [Consulted (name s) 0; Delayed (JS.ofZ 0)])
                  ++ Attempted 1 :: Sent request :: later,
                  w')).
Proof.
  assert (Forall (skips info) skipping ->
          retry s info = Normal (Wait (JS.ofZ 0)) ->
          strategiesLoop delay (skipping ++ s :: rest) info request w
          = (Some match fst (delay (JS.ofZ 0) w) with
                  | Normal _ => Continue request
                  | Abrupt e => Done (Abrupt e)
                  end,
             map (fun s' => Consulted (name s') (retryCount info)) skipping
             ++ [Consulted (name s) (retryCount info); Delayed (JS.ofZ 0)],
             snd (delay (JS.ofZ 0) w))) as Hloop.
  { intros Hk Hr. rewrite (strategiesLoop_skipped delay info request w skipping _ Hk).
    rewrite (strategiesLoop_wait delay info request w s rest (JS.ofZ 0) Hr eq_refl).
    reflexivity. }
  split; [|split; [exact Hloop|split]].
  - intros Hs Hh.
    assert (getRetryAfterInMs Date_parse Date_now (Some r) = Some (JS.ofZ 0)) as E.
    { rewrite getRetryAfterInMs_order by (rewrite Hs; reflexivity).
      rewrite (parseHeaderValueAsNumber_value _ _ _ Hh). reflexivity. }
    split; [exact E|]. unfold isThrottlingRetryResponse. rewrite E. reflexivity.
  - intros next aborted options fuel count w0 result sent answer failure
           Ht Hc -> Ha Hlt Hk Hr.
    pose proof (attempt_wait_behind_skips next aborted delay skipping rest s options
                  count request w0 w result sent answer failure
                  (Wait (JS.ofZ 0)) (JS.ofZ 0)
                  Ht Hc Ha Hlt Hk Hr eq_refl eq_refl eq_refl eq_refl) as E.
    split; [exact E|]. intros u Hu. rewrite Hu in E.
    apply (retryLoop_continue _ _ _ _ _ _ _ _ _ _ _ _ E).
  - intros next aborted options u -> Ha Hc Hk Hr Hu.
    specialize (Hloop Hk Hr). rewrite Hu in Hloop.
    exact (first_attempt_continue next aborted delay (skipping ++ s :: rest) options
             request request w _ _ Ha Hc Hloop).
Qed.

Lemma C4_witness :
  (getRetryAfterInMs Scripted.parseKnownDate Scripted.now2026
     (Some (Scripted.throttled [("retry-after-ms", "0")])) = Some (JS.ofZ 0)
   /\ isThrottlingRetryResponse Scripted.parseKnownDate Scripted.now2026
        (Some (Scripted.throttled [("retry-after-ms", "0")])) = true)
  /\ strategiesLoop Scripted.delay
       [{| name := "skip"; retry := fun _ => Normal Skip |};
        {| name := "wait0"; retry := fun _ => Normal (Wait (JS.ofZ 0)) |};
        Scripted.alwaysWait10]
       (mockInfo Scripted.demoRequest) Scripted.demoRequest Scripted.fourAnswers
     = (Some (Continue Scripted.demoRequest),
        [Consulted "skip" 0; Consulted "wait0" 0; Delayed (JS.ofZ 0)],
        Scripted.fourAnswers)
  /\ Scripted.attempt
       [{| name := "skip"; retry := fun _ => Normal Skip |};
        {| name := "wait0"; retry := fun _ => Normal (Wait (JS.ofZ 0)) |};
        Scripted.alwaysWait10]
       defaultOptions 0 Scripted.demoRequest Scripted.fourAnswers
     = (Continue Scripted.demoRequest,
        [Attempted 0; Consulted "skip" 0; Consulted "wait0" 0; Delayed (JS.ofZ 0)],
        Scripted.fourAnswers)
  /\ exists outcome later w',
       Scripted.sendRequest
         [{| name := "skip"; retry := fun _ => Normal Skip |};
          {| name := "wait0"; retry := fun _ => Normal (Wait (JS.ofZ 0)) |};
          Scripted.alwaysWait10]
         defaultOptions Scripted.demoRequest Scripted.fourAnswers
       = Some (outcome,
               Attempted 0 :: Consulted "skip" 0 :: Consulted "wait0" 0
               :: Delayed (JS.ofZ 0) :: Attempted 1 :: Sent Scripted.demoRequest :: later,
               w').
Proof.
  pose proof (C4_zero_wait Scripted.parseKnownDate Scripted.now2026 Scripted.delay
                (Scripted.throttled [("retry-after-ms", "0")])
                [{| name := "skip"; retry := fun _ => Normal Skip |}]
                [Scripted.alwaysWait10]
                {| name := "wait0"; retry := fun _ => Normal (Wait (JS.ofZ 0)) |}
                (mockInfo Scripted.demoRequest)
                Scripted.demoRequest Scripted.fourAnswers) as (H1 & H2 & H3 & H4).
  assert (Forall (skips (mockInfo Scripted.demoRequest))
            [{| name := "skip"; retry := fun _ => Normal Skip |}]) as Hk.
  { constructor; [|constructor]. exists Skip. split; reflexivity. }
  split; [apply H1; reflexivity|].
  split; [apply (H2 Hk eq_refl)|].
  split.
  - exact (proj1 (H3 Scripted.next Scripted.aborted defaultOptions 0%nat 0%nat
                    Scripted.fourAnswers _ _ _ _
                    eq_refl eq_refl eq_refl eq_refl eq_refl Hk eq_refl)).
  - exact (H4 Scripted.next Scripted.aborted defaultOptions tt
              eq_refl eq_refl eq_refl Hk eq_refl eq_refl).
Defined.

(** X13: a wait wins over a redirect. When the first strategy that does
    not skip gives a wait that is not [NaN] (0, negative and infinite waits
    included) and no error, [delay] is called with that wait and the loop
    goes on with the request as it is, even when the same verdict also names
    a redirect: the pass of the retry loop ends with [continue] and the
    unchanged request, the loop runs its next pass with it, and in
    [sendRequest], after the first attempt, the delay is followed by the
    second attempt and its call of [next] with the unchanged request. *)
Theorem wait_wins_over_redirect {World : Type}
    (delay : JS.number -> World -> Completion unit * World)
    (skipping rest : list RetryStrategy) (s : RetryStrategy)
    (info : RetryInformation) (request : PipelineRequest) (w : World)
    (m : RetryModifiers) (ms : JS.number) :
  Forall (skips info) skipping ->
  retry s info = Normal m ->
  isTrue (skipStrategy m) = false ->
  whenTruthy (errorToThrow m) = None ->
  retryAfterInMs m = Some ms ->
  JS.isNaN ms = false ->
  strategiesLoop delay (skipping ++ s :: rest) info request w
  = (Some match fst (delay ms w) with
          | Normal _ => Continue request
          | Abrupt e => Done (Abrupt e)
          end,
     map (consulting (retryCount info)) skipping
     ++ [consulting (retryCount info) s; Delayed ms],
     snd (delay ms w))
  /\ (forall (next : PipelineRequest -> World
                     -> Completion (option PipelineResponse) * World)
             (aborted : World -> bool) (options : RetryPolicyOptions)
             (fuel count : nat) (w0 : World) result sent answer failure,
        trySend next count request w0 = (result, sent, w) ->
        capture result = inr (answer, failure) ->
        info = {| retryCount := count; response := answer; responseError := failure |} ->
        aborted w = false ->
        Z.of_nat count < retryCeiling options ->
        attempt next aborted delay (skipping ++ s :: rest) options count request w0
        = (match fst (delay ms w) with
           | Normal _ => Continue request
           | Abrupt e => Done (Abrupt e)
           end,
           (Attempted count :: sent)
           ++ map (consulting count) skipping ++ [consulting count s; Delayed ms],
           snd (delay ms w))
        /\ (forall u, fst (delay ms w) = Normal u ->
              retryLoop next aborted delay (skipping ++ s :: rest) options
                (S fuel) count request w0
              = match retryLoop next aborted delay (skipping ++ s :: rest) options
                        fuel (S count) request (snd (delay ms w)) with
                | Some (outcome, later, w2) =>
                    Some (outcome,
                          ((Attempted count :: sent)
                           ++ map (consulting count) skipping
                           ++ [consulting count s; Delayed ms])
                          ++ later,
                          w2)
                | None => None
                end))
  /\ (forall (next : PipelineRequest -> World
                     -> Completion (option PipelineResponse) * World)
             (aborted : World -> bool) (options : RetryPolicyOptions) u,
        info = mockInfo request ->
        aborted w = false ->
        0 < retryCeiling options ->
        fst (delay ms w) = Normal u ->
        exists outcome later w',
          sendRequest next aborted delay (skipping ++ s :: rest) options request w
          = Some (outcome,
                  Attempted 0
                  :: (map (consulting 0) skipping ++ [consulting 0 s; Delayed ms])
                  ++ Attempted 1 :: Sent request :: later,
                  w')).
Proof.
  intros Hk Hm Hs He Hw Hn.
  pose proof (strategiesLoop_wait_behind_skips delay skipping rest s info request w m ms
                Hk Hm Hs He Hw Hn) as Hloop.
  split; [exact Hloop|]. split.
  - intros next aborted options fuel count w0 result sent answer failure
           Ht Hc Hi Ha Hlt. subst info.
    pose proof (attempt_wait_behind_skips next aborted delay skipping rest s options
                  count request w0 w result sent answer failure m ms
                  Ht Hc Ha Hlt Hk Hm Hs He Hw Hn) as E.
    split; [exact E|]. intros u Hu. rewrite Hu in E.
    apply (retryLoop_continue _ _ _ _ _ _ _ _ _ _ _ _ E).
  - intros next aborted options u Hi Ha Hc Hu. subst info. rewrite Hu in Hloop.
    exact (first_attempt_continue next aborted delay (skipping ++ s :: rest) options
             request request w _ _ Ha Hc Hloop).
Qed.

Lemma wait_wins_over_redirect_witness :
  strategiesLoop Scripted.delay
    [{| name := "both";
        retry := fun _ => Normal {| skipStrategy := None;
                                    redirectTo := Some "https://other.example/";
                                    retryAfterInMs := Some (JS.ofZ (-1));
                                    errorToThrow := None |} |}]
    (mockInfo Scripted.demoRequest) Scripted.demoRequest Scripted.fourAnswers
  = (Some (Continue Scripted.demoRequest),
     [Consulted "both" 0; Delayed (JS.ofZ (-1))], Scripted.fourAnswers)
  /\ exists outcome later w',
       Scripted.sendRequest
         [{| name := "both";
             retry := fun _ => Normal {| skipStrategy := None;
                                         redirectTo := Some "https://other.example/";
                                         retryAfterInMs := Some (JS.ofZ (-1));
                                         errorToThrow := None |} |}]
         defaultOptions Scripted.demoRequest Scripted.fourAnswers
       = Some (outcome,
               Attempted 0 :: Consulted "both" 0 :: Delayed (JS.ofZ (-1))
               :: Attempted 1 :: Sent Scripted.demoRequest :: later,
               w').
Proof.
  pose proof (wait_wins_over_redirect Scripted.delay [] []
                {| name := "both";
                   retry := fun _ => Normal {| skipStrategy := None;
                                               redirectTo := Some "https://other.example/";
                                               retryAfterInMs := Some (JS.ofZ (-1));
                                               errorToThrow := None |} |}
                (mockInfo Scripted.demoRequest) Scripted.demoRequest Scripted.fourAnswers
                _ (JS.ofZ (-1)) (List.Forall_nil _) eq_refl eq_refl eq_refl eq_refl eq_refl)
    as (H1 & _ & H3).
  split; [exact H1|].
  exact (H3 Scripted.next Scripted.aborted defaultOptions tt
            eq_refl eq_refl eq_refl eq_refl).
Defined.
